(** * legal-core: the forensic intelligence pipeline, embedded in Rocq

    A shallow embedding of the parts of the Python sources that the
    specification's testable properties talk about:

    - [backend/FORENSIC_METADATA_EXTRACTOR.py]   (module [Forensic])
    - [backend/NARRATIVE_INTELLIGENCE_SYSTEM.py] (module [Narrative])
    - [backend/MASTER_INTELLIGENCE_SYSTEM.py] and
      [backend/GOVERNMENT_API_INTEGRATOR.py]     (module [Master])
    - [src/psychology/machiavellian_analyzer.py] and
      [src/forensics/risk_profiler.py]           (module [Machiavellian])

    Conventions.
    - A Python [str] is a [string]; its characters are the code points
      below 256 (Latin-1), on which [str.lower] and [str.strip] are
      written out.
    - A Python [float] is a rational [Q] where the code only counts and
      divides; the success probability of a strategy, where the rounding
      of a sum decides a comparison, is computed on binary64 floats
      ([PrimFloat]), the literals rounded as Python rounds them.
    - Code that can raise returns a [result]; the exception classes are the
      constructors of [exn].
    - Functions of the Python standard library and of third-party packages
      (email, hashlib, sqlite3, re, networkx, numpy) are the fields of a
      class ([EmailLib], [Networkx], [Numpy], [Patterns]): the theorems
      hold for every implementation of them.  What such a call reads
      besides its arguments (the clock, the state of [random]) is an
      argument of the embedding.
    - Methods that a class calls on [self] without defining them are the
      fields of a class [Helpers]; its instance [as_shipped] raises
      [AttributeError], as the attribute look-up does. *)

From Stdlib Require Import Floats.
From Stdlib Require Import String Ascii List ZArith QArith Qround Lia Bool Arith.
From Stdlib Require Import Permutation Sorted.
Import ListNotations.
Set Warnings "-inexact-float".
Close Scope Q_scope.
Open Scope string_scope.
Open Scope nat_scope.
Open Scope list_scope.

(** ** Python strings *)

Module PyStr.

(** [str.lower] on one code point below 256: A-Z and the Latin-1 capitals
    (all of U+00C0..U+00DE but the multiplication sign) move up by 32. *)
Definition lower_char (c : ascii) : ascii :=
  let n := nat_of_ascii c in
  if ((65 <=? n) && (n <=? 90))
     || ((192 <=? n) && (n <=? 222) && negb (n =? 215))
  then ascii_of_nat (n + 32)
  else c.

Fixpoint lower (s : string) : string :=
  match s with
  | EmptyString => EmptyString
  | String c t => String (lower_char c) (lower t)
  end.

(** [needle in hay]: some suffix of [hay] starts with [needle]. *)
Fixpoint contains (needle hay : string) : bool :=
  prefix needle hay
  || match hay with
     | EmptyString => false
     | String _ t => contains needle t
     end.

(** The number of positions of [hay] at which [needle] starts. *)
Fixpoint occurrences (needle hay : string) : nat :=
  (if prefix needle hay then 1 else 0)
  + match hay with
    | EmptyString => 0
    | String _ t => occurrences needle t
    end.

(** [str.isspace] on one code point below 256. *)
Definition is_space (c : ascii) : bool :=
  let n := nat_of_ascii c in
  ((9 <=? n) && (n <=? 13)) || ((28 <=? n) && (n <=? 32))
  || (n =? 133) || (n =? 160).

Fixpoint lstrip (s : string) : string :=
  match s with
  | EmptyString => EmptyString
  | String c t => if is_space c then lstrip t else s
  end.

Fixpoint rstrip (s : string) : string :=
  match s with
  | EmptyString => EmptyString
  | String c t =>
      match rstrip t with
      | EmptyString => if is_space c then EmptyString else String c EmptyString
      | t' => String c t'
      end
  end.

Definition strip (s : string) : string := rstrip (lstrip s).

(** Truth value of a [str]: non-empty. *)
Definition truthy (s : string) : bool :=
  match s with EmptyString => false | _ => true end.

(** [sum(1 for k in keywords if k in text)]. *)
Definition keyword_hits (keywords : list string) (text : string) : nat :=
  list_sum (map (fun _ => 1) (filter (fun k => contains k text) keywords)).

(** The reading "count every occurrence of every keyword". *)
Definition total_occurrences (keywords : list string) (text : string) : nat :=
  list_sum (map (fun k => occurrences k text) keywords).

End PyStr.

(** ** Exceptions, results and the Python built-ins the code relies on *)

Module Py.

Inductive exn : Type :=
| AttributeError (attribute : string)
| TypeError (message : string)
| IndexError
| RecursionError
| LibraryError (message : string).

Inductive result (A : Type) : Type :=
| Ok (value : A)
| Raise (e : exn).
Arguments Ok {A} value.
Arguments Raise {A} e.

Definition bind {A B : Type} (m : result A) (k : A -> result B) : result B :=
  match m with
  | Ok a => k a
  | Raise e => Raise e
  end.


(** [self.name(...)] where the class has no [def name]: the attribute
    look-up raises before any argument is used. *)
Definition undefined_method {A : Type} (name : string) : result A :=
  Raise (AttributeError name).

(** A [datetime]: naive (no tzinfo; microseconds since [datetime.min]) or
    aware (an instant, microseconds on the UTC axis). *)
Inductive datetime : Type :=
| Naive (micro : N)
| Aware (utc_micro : Z).

Definition datetime_min : datetime := Naive 0.

(** [a < b] on datetimes: an order within each kind, a [TypeError] across. *)
Definition datetime_lt (a b : datetime) : result bool :=
  match a, b with
  | Naive x, Naive y => Ok (N.ltb x y)
  | Aware x, Aware y => Ok (Z.ltb x y)
  | _, _ =>
      Raise (TypeError "can't compare offset-naive and offset-aware datetimes")
  end.

(** Both naive or both aware. *)
Definition same_kind (a b : datetime) : Prop :=
  match a, b with
  | Naive _, Naive _ | Aware _, Aware _ => True
  | _, _ => False
  end.

Definition is_naive (d : datetime) : Prop :=
  match d with Naive _ => True | Aware _ => False end.

(** The microseconds of a naive datetime. *)
Definition micro_of (d : datetime) : N :=
  match d with Naive n => n | Aware _ => 0%N end.

(** Order and equality of the microseconds under a key function. *)
Definition micro_le {A : Type} (key : A -> datetime) (a b : A) : Prop :=
  (micro_of (key a) <= micro_of (key b))%N.

Definition micro_is {A : Type} (key : A -> datetime) (k : N) (a : A) : bool :=
  N.eqb (micro_of (key a)) k.

(** [a < b] where either side may be [None]. *)
Definition optional_datetime_lt (a b : option datetime) : result bool :=
  match a, b with
  | Some x, Some y => datetime_lt x y
  | _, _ => Raise (TypeError "'<' not supported between instances")
  end.

Section Sorting.
Context {A K : Type}.
Variable lt : K -> K -> result bool.
Variable key : A -> K.

(** [sorted(l, key=key)] / [l.sort(key=key)]: a stable sort that orders by
    [<] on the keys and lets a raising comparison escape.  Written as the
    stable insertion sort; on two elements it asks [key l[1] < key l[0]],
    as the built-in does. *)
Fixpoint insert_by (x : A) (l : list A) : result (list A) :=
  match l with
  | [] => Ok [x]
  | y :: t =>
      bind (lt (key y) (key x)) (fun b =>
      if b then bind (insert_by x t) (fun t' => Ok (y :: t'))
      else Ok (x :: y :: t))
  end.

Fixpoint sorted_by (l : list A) : result (list A) :=
  match l with
  | [] => Ok []
  | x :: t => bind (sorted_by t) (insert_by x)
  end.
End Sorting.

(** [dict.get(k)] on a dict kept as an association list. *)
Fixpoint dict_get {V : Type} (d : list (string * V)) (k : string) : option V :=
  match d with
  | [] => None
  | (k', v) :: t => if String.eqb k' k then Some v else dict_get t k
  end.

(** [d[k] = v]: in place when the key is there, at the end otherwise. *)
Fixpoint dict_set {V : Type} (d : list (string * V)) (k : string) (v : V)
  : list (string * V) :=
  match d with
  | [] => [(k, v)]
  | (k', v') :: t =>
      if String.eqb k' k then (k, v) :: t else (k', v') :: dict_set t k v
  end.

Definition get_default {V : Type} (o : option V) (d : V) : V :=
  match o with Some v => v | None => d end.

(** A comprehension [[f(x) for x in l]] whose [f] can raise: the items in
    order, up to the first exception. *)
Fixpoint traverse {A B : Type} (f : A -> result B) (l : list A)
  : result (list B) :=
  match l with
  | [] => Ok []
  | x :: t =>
      bind (f x) (fun y => bind (traverse f t) (fun t' => Ok (y :: t')))
  end.

(** [min(a, b)] on two floats: [b] when [b < a], otherwise [a] (so [a]
    when either is a NaN). *)
Definition float_min (a b : float) : float :=
  if PrimFloat.ltb b a then b else a.

(** [s.endswith(suffix)]. *)
Definition endswith (s suffix : string) : bool :=
  let n := String.length s in
  let m := String.length suffix in
  (m <=? n) && String.eqb (substring (n - m) m s) suffix.

(** [round(x, 2)] where [100 * x] is taken exactly: nearest multiple of
    1/100, halves to the even one. *)
Definition round_half_even (q : Q) : Z :=
  let f := Qfloor q in
  match Qcompare (q - inject_Z f) (1 # 2) with
  | Lt => f
  | Gt => (f + 1)%Z
  | Eq => if Z.even f then f else (f + 1)%Z
  end.

Definition round2 (q : Q) : Q :=
  (inject_Z (round_half_even (q * 100)) / 100)%Q.

End Py.

Notation "x <- m ;; k" := (Py.bind m (fun x => k))
  (at level 61, m at next level, right associativity).

(** ** backend/FORENSIC_METADATA_EXTRACTOR.py *)

Module Forensic.
Import Py PyStr.

Inductive tone : Type := aggressive | passive | professional | neutral.

Record metadata : Type := {
  message_id : string;
  date_rfc2822 : string;
  date_parsed : option datetime;
  sender_name : string;
  sender_email : string;
  recipients_to : list string;
  recipients_cc : list string;
  recipients_bcc : list string;
  reply_to : string;
  subject : string;
  references : string;
  in_reply_to : string;
  mime_version : string;
  content_type : string;
  transfer_encoding : string;
  x_mailer : string;
  x_originating_ip : string;
  received_path : string;
  authentication_results : string;
  arc_authentication : string;
  delivered_to : string;
  message_hash : string;
  extraction_timestamp : string
}.

(** The record with its extraction timestamp blanked. *)
Definition without_timestamp (m : metadata) : metadata :=
  {| message_id := message_id m; date_rfc2822 := date_rfc2822 m;
     date_parsed := date_parsed m; sender_name := sender_name m;
     sender_email := sender_email m; recipients_to := recipients_to m;
     recipients_cc := recipients_cc m; recipients_bcc := recipients_bcc m;
     reply_to := reply_to m; subject := subject m;
     references := references m; in_reply_to := in_reply_to m;
     mime_version := mime_version m; content_type := content_type m;
     transfer_encoding := transfer_encoding m; x_mailer := x_mailer m;
     x_originating_ip := x_originating_ip m;
     received_path := received_path m;
     authentication_results := authentication_results m;
     arc_authentication := arc_authentication m;
     delivered_to := delivered_to m; message_hash := message_hash m;
     extraction_timestamp := "" |}.

(** The record with its message hash and its extraction timestamp
    blanked. *)
Definition without_hash (m : metadata) : metadata :=
  {| message_id := message_id m; date_rfc2822 := date_rfc2822 m;
     date_parsed := date_parsed m; sender_name := sender_name m;
     sender_email := sender_email m; recipients_to := recipients_to m;
     recipients_cc := recipients_cc m; recipients_bcc := recipients_bcc m;
     reply_to := reply_to m; subject := subject m;
     references := references m; in_reply_to := in_reply_to m;
     mime_version := mime_version m; content_type := content_type m;
     transfer_encoding := transfer_encoding m; x_mailer := x_mailer m;
     x_originating_ip := x_originating_ip m;
     received_path := received_path m;
     authentication_results := authentication_results m;
     arc_authentication := arc_authentication m;
     delivered_to := delivered_to m; message_hash := "";
     extraction_timestamp := "" |}.

Record behavioral : Type := {
  thread_depth : nat;
  timestamp_after_hours : option bool;
  language_tone : tone;
  sentiment_score : Q;
  legal_clause_references : list string;
  manipulation_indicators : list string;
  urgency_indicators : list string
}.

(** What the code asks of the [email], [hashlib], [re] and [sqlite3]
    packages and of the file system.  A parsed message and an attachment
    entry are opaque; every call that can raise returns a [result]. *)
Class EmailLib : Type := {
  Message : Type;
  Attachment : Type;
  (** the state of the [random] module when a call starts *)
  Entropy : Type;
  (** [open(path, 'rb').read()] *)
  read_file : string -> result (list ascii);
  (** [email.message_from_bytes(raw, policy=default)] *)
  message_from_bytes : list ascii -> result Message;
  (** [msg.get(name)], [None] when the header is absent; under
      [policy=default] a header is parsed when it is read, and the parser
      raises on some malformed values *)
  msg_get : Message -> string -> result (option string);
  (** [msg.get_all(name, [])] *)
  msg_get_all : Message -> string -> result (list string);
  (** [str(msg)]: the text, and the message as the generator leaves it.  A
      multipart message without a boundary is given one, drawn from
      [random] and written into the text and into the message. *)
  msg_str : Entropy -> Message -> result (string * Message);
  (** [email.utils.parsedate_to_datetime] *)
  parsedate_to_datetime : string -> result datetime;
  (** [email.utils.parseaddr] *)
  parseaddr : string -> result (string * string);
  (** [email.utils.getaddresses] *)
  getaddresses : list string -> result (list (string * string));
  (** [hashlib.sha256(s.encode()).hexdigest()] *)
  sha256_hexdigest : string -> result string;
  (** [re.search(r'from\s+([^\s]+)', header)], its group 1 *)
  received_from : string -> option string;
  (** the walk over the MIME parts in [extract_attachment_metadata] *)
  extract_attachment_metadata : Message -> result (list Attachment);
  (** the text/plain payload, as [get_email_content] decodes it *)
  get_email_content : Message -> result string;
  (** the [re.findall] loop of [detect_legal_clauses] *)
  detect_legal_clauses : string -> list string;
  (** the two INSERT statements of [store_email_metadata] *)
  store_email_metadata :
    metadata -> list Attachment -> behavioral -> result unit;
  (** [datetime.hour] *)
  hour_of : datetime -> nat;
  (** [len(s.split())] *)
  split_count : string -> nat
}.

(** The same library with another date parser. *)
Definition with_date_parser (L : EmailLib)
    (parser : string -> result datetime) : EmailLib :=
  {| Message := @Message L;
     Attachment := @Attachment L;
     Entropy := @Entropy L;
     read_file := @read_file L;
     message_from_bytes := @message_from_bytes L;
     msg_get := @msg_get L;
     msg_get_all := @msg_get_all L;
     msg_str := @msg_str L;
     parsedate_to_datetime := parser;
     parseaddr := @parseaddr L;
     getaddresses := @getaddresses L;
     sha256_hexdigest := @sha256_hexdigest L;
     received_from := @received_from L;
     extract_attachment_metadata := @extract_attachment_metadata L;
     get_email_content := @get_email_content L;
     detect_legal_clauses := @detect_legal_clauses L;
     store_email_metadata := @store_email_metadata L;
     hour_of := @hour_of L;
     split_count := @split_count L |}.

Record timeline_event : Type := {
  timestamp : option datetime;
  event_type : string;
  participants : list string;
  event_subject : string;
  metadata_hash : string
}.

(** The methods that [ForensicMetadataExtractor] calls on [self] without
    defining them.  [as_shipped] below is the class as the repository has
    it. *)
Class Helpers (State Gaps Report : Type) : Type := {
  process_mbox_file : State -> string -> result State;
  process_zip_archive : State -> string -> result State;
  process_email_directory : State -> string -> result State;
  calculate_sentiment_score : string -> result Q;
  detect_manipulation_patterns : string -> result (list string);
  analyze_urgency_patterns : string -> result (list string);
  analyze_timeline_gaps : list timeline_event -> result Gaps;
  identify_contradictions : State -> result Report;
  analyze_retaliation_patterns : State -> result Report;
  validate_email_authentication : State -> result Report;
  generate_integrity_report : State -> result Report
}.

Definition aggressive_indicators : list string :=
  ["must"; "require"; "demand"; "immediately"; "failure to"].
Definition passive_indicators : list string :=
  ["please"; "kindly"; "would appreciate"; "if possible"].
Definition professional_indicators : list string :=
  ["pursuant to"; "in accordance with"; "please find"; "reference"].

Definition aggressive_score (content : string) : nat :=
  keyword_hits aggressive_indicators (lower content).
Definition passive_score (content : string) : nat :=
  keyword_hits passive_indicators (lower content).
Definition professional_score (content : string) : nat :=
  keyword_hits professional_indicators (lower content).

Definition analyze_language_tone (content : string) : tone :=
  let content_lower := lower content in
  let aggressive_score := keyword_hits aggressive_indicators content_lower in
  let passive_score := keyword_hits passive_indicators content_lower in
  let professional_score :=
    keyword_hits professional_indicators content_lower in
  if Nat.max passive_score professional_score <? aggressive_score
  then aggressive
  else if professional_score <? passive_score then passive
  else if 0 <? professional_score then professional
  else neutral.

Definition determine_actor_role (email name : string) : string :=
  if contains "areal" (lower email) then "property_manager"
  else if contains "vcat" (lower email) then "tribunal"
  else if existsb (fun keyword => contains keyword (lower email))
                  ["government"; "gov.au"; "vic.gov"]
  then "government_agency"
  else if contains "chawakorn" (lower email) then "tenant"
  else "unknown".

Record actor : Type := {
  actor_email : string;
  actor_name : string;
  role : string;
  communication_count : nat;
  first_contact : option datetime;
  last_contact : option datetime
}.

Record timeline_analysis (Gaps : Type) : Type := {
  total_events : nat;
  date_range : option datetime * option datetime;
  events : list timeline_event;
  gap_analysis : Gaps
}.
Arguments total_events {Gaps} _.
Arguments date_range {Gaps} _.
Arguments events {Gaps} _.
Arguments gap_analysis {Gaps} _.

Record analysis (Gaps Report : Type) : Type := {
  total_emails : nat;
  timeline_analysis_of : timeline_analysis Gaps;
  actor_role_mapping : list (string * actor);
  contradiction_matrix : Report;
  retaliation_analysis : Report;
  authentication_validation : Report;
  metadata_integrity_report : Report
}.

(** How [Path(p)] answers [is_file()] and [is_dir()]. *)
Inductive path_kind : Type := IsFile | IsDir | Missing.

Section Extractor.
Context {L : EmailLib}.

Record state : Type := {
  extracted_metadata : list (metadata * list Attachment * behavioral);
  forensic_timeline : list timeline_event;
  (** what [logging.error] has written: the path and the exception *)
  error_log : list (string * exn)
}.

Definition initial_state : state :=
  {| extracted_metadata := []; forensic_timeline := []; error_log := [] |}.

Context {Gaps Report : Type} {H : Helpers state Gaps Report}.

Fixpoint join_arrow (l : list string) : string :=
  match l with
  | [] => ""
  | [x] => x
  | x :: t => x ++ " -> " ++ join_arrow t
  end.

Definition analyze_received_path (received_headers : list string) : string :=
  join_arrow
    (flat_map (fun header =>
                 match received_from header with
                 | Some server => [server]
                 | None => []
                 end) received_headers).

(** [msg.get(name, '')] *)
Definition header (msg : Message) (name : string) : result string :=
  value <- msg_get msg name ;;
  Ok (get_default value "").

(** [[addr[1] for addr in email.utils.getaddresses(msg.get_all(name, []))]] *)
Definition addresses (msg : Message) (name : string)
  : result (list string) :=
  values <- msg_get_all msg name ;;
  pairs <- getaddresses values ;;
  Ok (map snd pairs).

(** [now] is the value of [datetime.now().isoformat()] at the call and
    [seed] the state of [random].  The assignments run in the order of
    the source, so the first call that raises decides the exception.  The
    message comes back as [str(msg)] has left it. *)
Definition extract_complete_email_metadata (now : string) (seed : Entropy)
    (msg : Message) : result (metadata * Message) :=
  message_id <- header msg "Message-ID" ;;
  date_rfc2822 <- header msg "Date" ;;
  date <- msg_get msg "Date" ;;
  date_parsed <-
    (match date with
     | Some d =>
         if truthy d
         then (text <- header msg "Date" ;;
               t <- parsedate_to_datetime text ;;
               Ok (Some t))
         else Ok None
     | None => Ok None
     end) ;;
  from <- header msg "From" ;;
  sender_parsed <- parseaddr from ;;
  recipients_to <- addresses msg "To" ;;
  recipients_cc <- addresses msg "Cc" ;;
  recipients_bcc <- addresses msg "Bcc" ;;
  reply_to <- header msg "Reply-To" ;;
  subject <- header msg "Subject" ;;
  references <- header msg "References" ;;
  in_reply_to <- header msg "In-Reply-To" ;;
  mime_version <- header msg "MIME-Version" ;;
  content_type <- header msg "Content-Type" ;;
  transfer_encoding <- header msg "Content-Transfer-Encoding" ;;
  x_mailer <- header msg "X-Mailer" ;;
  x_originating_ip <- header msg "X-Originating-IP" ;;
  received_headers <- msg_get_all msg "Received" ;;
  authentication_results <- header msg "Authentication-Results" ;;
  arc_authentication <- header msg "ARC-Authentication-Results" ;;
  delivered_to <- header msg "Delivered-To" ;;
  serialised <- msg_str seed msg ;;
  hash <- sha256_hexdigest (fst serialised) ;;
  Ok ({| message_id := message_id;
         date_rfc2822 := date_rfc2822;
         date_parsed := date_parsed;
         sender_name := fst sender_parsed;
         sender_email := snd sender_parsed;
         recipients_to := recipients_to;
         recipients_cc := recipients_cc;
         recipients_bcc := recipients_bcc;
         reply_to := reply_to;
         subject := subject;
         references := references;
         in_reply_to := in_reply_to;
         mime_version := mime_version;
         content_type := content_type;
         transfer_encoding := transfer_encoding;
         x_mailer := x_mailer;
         x_originating_ip := x_originating_ip;
         received_path := analyze_received_path received_headers;
         authentication_results := authentication_results;
         arc_authentication := arc_authentication;
         delivered_to := delivered_to;
         message_hash := hash;
         extraction_timestamp := now |},
      snd serialised).

(** Parsing and extraction as [process_single_eml] chains them on the bytes
    it has read. *)
Definition extract_from_bytes (now : string) (seed : Entropy)
    (raw : list ascii) : result metadata :=
  msg <- message_from_bytes raw ;;
  extracted <- extract_complete_email_metadata now seed msg ;;
  Ok (fst extracted).

(** Two results agree up to the extraction timestamp: the same exception,
    or records that differ in that field at most. *)
Definition same_up_to_timestamp (r1 r2 : result metadata) : Prop :=
  match r1, r2 with
  | Ok m1, Ok m2 =>
      message_hash m1 = message_hash m2
      /\ without_timestamp m1 = without_timestamp m2
  | Raise e1, Raise e2 => e1 = e2
  | _, _ => False
  end.

Definition analyze_email_behavior (msg : Message) (m : metadata)
  : result behavioral :=
  content <- get_email_content msg ;;
  let thread_depth :=
    if truthy (references m) then split_count (references m) else 0 in
  let after_hours :=
    match date_parsed m with
    | Some d => Some ((hour_of d <? 7) || (18 <? hour_of d))
    | None => None
    end in
  let language_tone := analyze_language_tone content in
  sentiment <- calculate_sentiment_score content ;;
  let clauses := detect_legal_clauses content in
  manipulation <- detect_manipulation_patterns content ;;
  urgency <- analyze_urgency_patterns (subject m) ;;
  Ok {| thread_depth := thread_depth;
        timestamp_after_hours := after_hours;
        language_tone := language_tone;
        sentiment_score := sentiment;
        legal_clause_references := clauses;
        manipulation_indicators := manipulation;
        urgency_indicators := urgency |}.

(** The body of the [try] of [process_single_eml], up to the two appends. *)
Definition try_single_eml (now : string) (seed : Entropy)
    (eml_path : string)
  : result (metadata * list Attachment * behavioral) :=
  raw <- read_file eml_path ;;
  parsed <- message_from_bytes raw ;;
  extracted <- extract_complete_email_metadata now seed parsed ;;
  let m := fst extracted in
  let msg := snd extracted in
  attachments <- extract_attachment_metadata msg ;;
  b <- analyze_email_behavior msg m ;;
  _ <- store_email_metadata m attachments b ;;
  Ok (m, attachments, b).

(** [try: ... except Exception as e: logging.error(...)] *)
Definition process_single_eml (now : string) (seed : Entropy) (st : state)
    (eml_path : string) : state :=
  match try_single_eml now seed eml_path with
  | Ok (m, attachments, b) =>
      {| extracted_metadata := extracted_metadata st ++ [(m, attachments, b)];
         forensic_timeline :=
           forensic_timeline st
           ++ [{| timestamp := date_parsed m;
                  event_type := "email_communication";
                  participants := sender_email m :: recipients_to m;
                  event_subject := subject m;
                  metadata_hash := message_hash m |}];
         error_log := error_log st |}
  | Raise e =>
      {| extracted_metadata := extracted_metadata st;
         forensic_timeline := forensic_timeline st;
         error_log := error_log st ++ [(eml_path, e)] |}
  end.

(** [x['timestamp'] if x['timestamp'] else datetime.min] *)
Definition timeline_key (x : timeline_event) : datetime :=
  match timestamp x with
  | Some t => t
  | None => datetime_min
  end.

Definition sorted_timeline (st : state) : result (list timeline_event) :=
  sorted_by datetime_lt timeline_key (forensic_timeline st).

Definition create_forensic_timeline (st : state)
  : result (timeline_analysis Gaps) :=
  timeline <- sorted_timeline st ;;
  let start := match timeline with x :: _ => timestamp x | [] => None end in
  let stop := match rev timeline with x :: _ => timestamp x | [] => None end in
  gaps <- analyze_timeline_gaps timeline ;;
  Ok {| total_events := length timeline;
        date_range := (start, stop);
        events := timeline;
        gap_analysis := gaps |}.

(** One round of the loop of [map_actor_roles]. *)
Definition count_actor (actors : list (string * actor)) (m : metadata)
  : result (list (string * actor)) :=
  let sender := sender_email m in
  let a :=
    match dict_get actors sender with
    | Some a => a
    | None =>
        {| actor_email := sender;
           actor_name := sender_name m;
           role := determine_actor_role sender (sender_name m);
           communication_count := 0;
           first_contact := date_parsed m;
           last_contact := date_parsed m |}
    end in
  let put (first last : option datetime) :=
    dict_set actors sender
      {| actor_email := actor_email a;
         actor_name := actor_name a;
         role := role a;
         communication_count := communication_count a + 1;
         first_contact := first;
         last_contact := last |} in
  match date_parsed m with
  | None => Ok (put (first_contact a) (last_contact a))
  | Some d =>
      earlier <-
        (match first_contact a with
         | None => Ok true
         | Some f => datetime_lt d f
         end) ;;
      let first := if earlier then Some d else first_contact a in
      later <-
        (match last_contact a with
         | None => Ok true
         | Some l => datetime_lt l d
         end) ;;
      let last := if later then Some d else last_contact a in
      Ok (put first last)
  end.

Fixpoint map_actor_roles_from
    (actors : list (string * actor))
    (l : list (metadata * list Attachment * behavioral))
  : result (list (string * actor)) :=
  match l with
  | [] => Ok actors
  | (m, _, _) :: t =>
      actors' <- count_actor actors m ;;
      map_actor_roles_from actors' t
  end.

Definition map_actor_roles (st : state) : result (list (string * actor)) :=
  map_actor_roles_from [] (extracted_metadata st).

(** The dict literal of [generate_forensic_analysis], entry by entry. *)
Definition generate_forensic_analysis (st : state)
  : result (analysis Gaps Report) :=
  timeline <- create_forensic_timeline st ;;
  actors <- map_actor_roles st ;;
  contradictions <- identify_contradictions st ;;
  retaliation <- analyze_retaliation_patterns st ;;
  authentication <- validate_email_authentication st ;;
  integrity <- generate_integrity_report st ;;
  Ok {| total_emails := length (extracted_metadata st);
        timeline_analysis_of := timeline;
        actor_role_mapping := actors;
        contradiction_matrix := contradictions;
        retaliation_analysis := retaliation;
        authentication_validation := authentication;
        metadata_integrity_report := integrity |}.




(** [kind] is what the file system says of the path.  The report files
    that [create_forensic_reports] writes are not part of the state. *)
Definition execute_complete_forensic_extraction
    (kind : path_kind) (now : string) (seed : Entropy) (st : state)
    (email_source_path : string)
  : result (state * analysis Gaps Report) :=
  st' <-
    (match kind with
     | IsFile =>
         if endswith email_source_path ".eml"
         then Ok (process_single_eml now seed st email_source_path)
         else if endswith email_source_path ".mbox"
         then process_mbox_file st email_source_path
         else if endswith email_source_path ".zip"
         then process_zip_archive st email_source_path
         else Ok st
     | IsDir => process_email_directory st email_source_path
     | Missing => Ok st
     end) ;;
  forensic_analysis <- generate_forensic_analysis st' ;;
  Ok (st', forensic_analysis).
End Extractor.

(** The class as the repository has it: each of these names is an attribute
    that does not exist. *)
Definition as_shipped {L : EmailLib} : Helpers state unit unit :=
  {| process_mbox_file := fun _ _ => undefined_method "process_mbox_file";
     process_zip_archive := fun _ _ => undefined_method "process_zip_archive";
     process_email_directory :=
       fun _ _ => undefined_method "process_email_directory";
     calculate_sentiment_score :=
       fun _ => undefined_method "calculate_sentiment_score";
     detect_manipulation_patterns :=
       fun _ => undefined_method "detect_manipulation_patterns";
     analyze_urgency_patterns :=
       fun _ => undefined_method "analyze_urgency_patterns";
     analyze_timeline_gaps :=
       fun _ => undefined_method "analyze_timeline_gaps";
     identify_contradictions :=
       fun _ => undefined_method "identify_contradictions";
     analyze_retaliation_patterns :=
       fun _ => undefined_method "analyze_retaliation_patterns";
     validate_email_authentication :=
       fun _ => undefined_method "validate_email_authentication";
     generate_integrity_report :=
       fun _ => undefined_method "generate_integrity_report" |}.

End Forensic.


(** ** backend/NARRATIVE_INTELLIGENCE_SYSTEM.py *)

Module Narrative.
Import Py PyStr.

(** An entry of [all_sources['emails']]: the keys the code subscripts. *)
Record email : Type := {
  email_timestamp : option datetime;
  sender : string;
  recipient : string;
  email_subject : string
}.

(** An entry of [all_sources['documents']]: the keys the code [get]s; an
    absent key is [None], a [date] stored as [None] is [Some None]. *)
Record document : Type := {
  date : option (option datetime);
  document_type : option string;
  parties : option (list string);
  title : option string
}.

Record sources : Type := {
  emails : option (list email);
  documents : option (list document)
}.

Record event : Type := {
  timestamp : option datetime;
  type : string;
  subtype : string;
  participants : list string;
  content : string;
  details : email + document;
  importance : string
}.

Record causal_link (Evidence : Type) : Type := {
  cause_event : event;
  effect_event : event;
  causal_strength : Q;
  evidence : Evidence
}.
Arguments cause_event {Evidence} _.
Arguments effect_event {Evidence} _.
Arguments causal_strength {Evidence} _.
Arguments evidence {Evidence} _.

(** The methods that [NarrativeReconstructionEngine] calls on [self]
    without defining them. *)
Class Helpers (Evidence : Type) : Type := {
  assess_event_importance : email -> result string;
  assess_causal_relationship : event -> event -> result Q;
  extract_causal_evidence : event -> event -> result Evidence
}.

(** The class as the repository has it. *)
Definition as_shipped : Helpers unit :=
  {| assess_event_importance :=
       fun _ => undefined_method "assess_event_importance";
     assess_causal_relationship :=
       fun _ _ => undefined_method "assess_causal_relationship";
     extract_causal_evidence :=
       fun _ _ => undefined_method "extract_causal_evidence" |}.

(** What [calculate_power_dynamics] asks of [networkx]: the node list of
    the graph and the three centrality dicts. *)
Class Networkx : Type := {
  Graph : Type;
  nodes : Graph -> list string;
  betweenness_centrality : Graph -> result (list (string * Q));
  closeness_centrality : Graph -> result (list (string * Q));
  eigenvector_centrality : Graph -> nat -> result (list (string * Q))
}.

Record power : Type := {
  betweenness : Q;
  closeness : Q;
  eigenvector : Q;
  overall_power_score : Q
}.

(** The threshold [0.3] of the causal map. *)
Definition causal_threshold : Q := 3 # 10.

(** [range(max(0, i-5), i)]; subtraction on [nat] stops at 0. *)
Definition look_back (i : nat) : list nat := seq (i - 5) (i - (i - 5)).

Section Engine.
Context {Evidence : Type} {H : Helpers Evidence}.

Fixpoint email_events (l : list email) : result (list event) :=
  match l with
  | [] => Ok []
  | e :: t =>
      imp <- assess_event_importance e ;;
      rest <- email_events t ;;
      Ok ({| timestamp := email_timestamp e;
             type := "communication";
             subtype := "email";
             participants := [sender e; recipient e];
             content := email_subject e;
             details := inl e;
             importance := imp |} :: rest)
  end.

(** [now] is the value of [datetime.now()] at the call. *)
Definition document_event (now : datetime) (doc : document) : event :=
  {| timestamp := get_default (date doc) (Some now);
     type := "legal_action";
     subtype := get_default (document_type doc) "unknown";
     participants := get_default (parties doc) [];
     content := get_default (title doc) "";
     details := inr doc;
     importance := "high" |}.

Definition extract_comprehensive_timeline (now : datetime)
    (all_sources : sources) : result (list event) :=
  from_emails <-
    (match emails all_sources with
     | Some l => email_events l
     | None => Ok []
     end) ;;
  let from_documents :=
    match documents all_sources with
    | Some l => map (document_event now) l
    | None => []
    end in
  sorted_by optional_datetime_lt timestamp (from_emails ++ from_documents).

(** The inner loop for one [event]: [js] are the indices still to visit. *)
Fixpoint look_back_loop (timeline : list event) (event : event)
    (js : list nat) (causal_map : list (causal_link Evidence))
  : result (list (causal_link Evidence)) :=
  match js with
  | [] => Ok causal_map
  | j :: js' =>
      match nth_error timeline j with
      | None => Raise IndexError
      | Some previous_event =>
          causal_strength <-
            assess_causal_relationship previous_event event ;;
          if Qlt_le_dec causal_threshold causal_strength
          then
            ev <- extract_causal_evidence previous_event event ;;
            look_back_loop timeline event js'
              (causal_map ++ [{| cause_event := previous_event;
                                 effect_event := event;
                                 causal_strength := causal_strength;
                                 evidence := ev |}])
          else look_back_loop timeline event js' causal_map
      end
  end.

(** The outer loop over [enumerate(timeline)], from index [i] on. *)
Fixpoint enumerate_loop (timeline : list event) (i : nat)
    (rest : list event) (causal_map : list (causal_link Evidence))
  : result (list (causal_link Evidence)) :=
  match rest with
  | [] => Ok causal_map
  | event :: rest' =>
      causal_map' <- look_back_loop timeline event (look_back i) causal_map ;;
      enumerate_loop timeline (S i) rest' causal_map'
  end.

(** A link whose cause lies 1 to 5 places before its effect in [timeline]
    and whose strength, as assessed for that pair, is above the threshold. *)
Definition link_in_window (timeline : list event)
    (link : causal_link Evidence) : Prop :=
  exists i j,
    nth_error timeline j = Some (cause_event link)
    /\ nth_error timeline i = Some (effect_event link)
    /\ j < i /\ i <= j + 5
    /\ (causal_threshold < causal_strength link)%Q
    /\ assess_causal_relationship (cause_event link) (effect_event link)
       = Ok (causal_strength link).

Definition build_causal_relationship_map (timeline : list event)
  : result (list (causal_link Evidence)) :=
  enumerate_loop timeline 0 timeline [].
End Engine.

Definition emotion_keywords : list (string * list string) :=
  [("anger", ["angry"; "furious"; "irritated"; "annoyed"; "frustrated"]);
   ("fear", ["worried"; "concerned"; "anxious"; "afraid"; "nervous"]);
   ("joy", ["happy"; "pleased"; "satisfied"; "glad"; "delighted"]);
   ("sadness", ["sad"; "disappointed"; "upset"; "discouraged"]);
   ("confidence", ["confident"; "certain"; "sure"; "positive"]);
   ("urgency", ["urgent"; "immediate"; "asap"; "rush"; "quickly"])].

(** The keywords configured for one emotion. *)
Definition emotion_group (emotion : string) : list string :=
  get_default (dict_get emotion_keywords emotion) [].

Definition detect_emotions (text : string) : list (string * nat) :=
  let text_lower := lower text in
  flat_map (fun entry =>
              let score := keyword_hits (snd entry) text_lower in
              if 0 <? score then [(fst entry, score)] else [])
           emotion_keywords.

Section Mapper.
Context {N : Networkx}.

Definition power_of (betweenness closeness eigenvector : list (string * Q))
    (node : string) : power :=
  let b := get_default (dict_get betweenness node) 0%Q in
  let c := get_default (dict_get closeness node) 0%Q in
  let e := get_default (dict_get eigenvector node) 0%Q in
  {| betweenness := b; closeness := c; eigenvector := e;
     overall_power_score := ((b + c + e) / 3)%Q |}.

Definition calculate_power_dynamics (relationship_graph : Graph)
  : result (list (string * power)) :=
  betweenness <- betweenness_centrality relationship_graph ;;
  closeness <- closeness_centrality relationship_graph ;;
  eigenvector <- eigenvector_centrality relationship_graph 1000 ;;
  Ok (map (fun node => (node, power_of betweenness closeness eigenvector node))
          (nodes relationship_graph)).
End Mapper.

Definition strategies : list string :=
  ["aggressive_litigation"; "collaborative_negotiation"; "mediation_approach";
   "regulatory_escalation"; "public_pressure"; "settlement_negotiation"].

(** What [calculate_success_probability] asks of [numpy]: [np.mean] of a
    list of floats. *)
Class Numpy : Type := {
  np_mean : list float -> float
}.

(** The floats of this function are binary64 values, its literals the
    nearest ones. *)
Definition base_probabilities : list (string * float) :=
  [("aggressive_litigation", 0.6);
   ("collaborative_negotiation", 0.75);
   ("mediation_approach", 0.8);
   ("regulatory_escalation", 0.7);
   ("public_pressure", 0.5);
   ("settlement_negotiation", 0.85)]%float.

(** [base_probabilities.get(strategy, 0.5)] *)
Definition base_probability (strategy : string) : float :=
  get_default (dict_get base_probabilities strategy) 0.5%float.

(** The [return] statement, for the value that [adjustments] has when it
    is reached: [min(1.0, base_probabilities.get(strategy, 0.5) +
    adjustments)]. *)
Definition reported (strategy : string) (adjustments : float) : float :=
  float_min 1 (base_probability strategy + adjustments).

Section Simulator.
Context {NP : Numpy}.

(** The scores that [np.mean] is given; a value of [relationship_data] is
    kept as what its [get('overall_power_score')] finds. *)
Definition power_scores (relationship_data : list (string * option float))
  : list float :=
  map (fun r => get_default (snd r) 0.5%float) relationship_data.

(** [adjustments] at the [return].  It starts as the integer [0], which
    the additions read as the float [0.0]. *)
Definition adjustments (relationship_data : list (string * option float))
  : float :=
  match relationship_data with
  | [] => 0%float
  | _ =>
      let avg_relationship_strength :=
        np_mean (power_scores relationship_data) in
      if PrimFloat.ltb 0.7 avg_relationship_strength
      then (0 + 0.1)%float
      else 0%float
  end.

Definition calculate_success_probability {Data : Type} (strategy : string)
    (narrative_data : Data)
    (relationship_data : list (string * option float)) : float :=
  reported strategy (adjustments relationship_data).
End Simulator.

End Narrative.

(** ** Vocabulary for the success probability *)

Module NarrativeTerms.

(** "Clamp to [0,1]", in the words of the specification: what lies below
    0 becomes 0, what lies above 1 becomes 1. *)
Definition clamp_to_unit (x : float) : float :=
  if PrimFloat.ltb x 0 then 0%float
  else if PrimFloat.ltb 1 x then 1%float
  else x.

End NarrativeTerms.


(** ** src/psychology/machiavellian_analyzer.py and
       src/forensics/risk_profiler.py *)

Module Machiavellian.
Import Py PyStr.

(** The dict [score], one field per key. *)
Record scores : Type := {
  deception : nat;
  emotional_control : nat;
  strategic_vagueness : nat;
  dominance_cue : nat;
  machiavellian_index : Q
}.

Definition score_machiavellian_traits (text : string) : scores :=
  let strategic_vagueness :=
    if contains "unforeseen circumstance" (lower text) then 0 + 1 else 0 in
  let dominance_cue :=
    if contains "as per our agreement" (lower text) then 0 + 1 else 0 in
  let emotional_control :=
    if contains "regrettably" (lower text) then 0 + 1 else 0 in
  let deception :=
    if existsb (fun x => contains x (lower text))
               ["confidential"; "subjective"; "understanding"]
    then 0 + 1 else 0 in
  let total :=
    deception + emotional_control + strategic_vagueness + dominance_cue in
  {| deception := deception;
     emotional_control := emotional_control;
     strategic_vagueness := strategic_vagueness;
     dominance_cue := dominance_cue;
     machiavellian_index := round2 (inject_Z (Z.of_nat total) / 4)%Q |}.

Record profile : Type := {
  risk_score : nat;
  flags : list string;
  traits : scores
}.

Definition build_risk_profile (text : string) : profile :=
  let mach := score_machiavellian_traits text in
  let p0 := (0, @nil string) in
  let p1 :=
    if Qle_bool 1 (machiavellian_index mach)
    then (fst p0 + 1, (snd p0 ++ ["High Machiavellian traits"])%list)
    else p0 in
  let p2 :=
    if 1 <=? deception mach
    then (fst p1 + 1, (snd p1 ++ ["Potential deception"])%list)
    else p1 in
  let p3 :=
    if contains "withhold" (lower text)
    then (fst p2 + 1, (snd p2 ++ ["Intent to obscure information"])%list)
    else p2 in
  {| risk_score := fst p3; flags := snd p3; traits := mach |}.

End Machiavellian.

(** ** backend/MASTER_INTELLIGENCE_SYSTEM.py and
       backend/GOVERNMENT_API_INTEGRATOR.py *)

Module Master.
Import Py PyStr.

(** The [re.findall] and [re.search] scans of [AutomaticLegalVerifier]. *)
Class Patterns : Type := {
  extract_case_citations : string -> list string;
  extract_statute_references : string -> list string;
  check_hallucination_indicators : string -> list string
}.

(** What [verify_case_citation] and [verify_statute] return: the reference
    and the [verified] flag. *)
Record verified_reference : Type := {
  reference : string;
  verified : bool
}.

Record verification : Type := {
  text_analyzed : string;
  verifications : list verified_reference;
  warnings : list string;
  confidence_score : Q
}.

Definition verify_case_citation (citation : string) : verified_reference :=
  {| reference := citation; verified := true |}.

Definition verify_statute (statute_reference : string) : verified_reference :=
  {| reference := statute_reference; verified := true |}.

Definition calculate_confidence_score (verifications : list verified_reference)
  : Q :=
  match verifications with
  | [] => 0%Q
  | _ =>
      let verified_count := length (filter verified verifications) in
      let total_count := length verifications in
      (inject_Z (Z.of_nat verified_count) / inject_Z (Z.of_nat total_count)
       * 100)%Q
  end.

(** An element of a contact's e-mail list. *)
Inductive email_item : Type :=
| NotADict
| Dict (content : option string).

(** [intelligence_data]: the two keys the verifier looks for; the
    behavioural analysis is kept as its [str()]. *)
Record intelligence : Type := {
  email_data : option (list (string * list email_item));
  behavioral_analysis : option string
}.

Record overall_verification : Type := {
  total_content_pieces : nat;
  verified_pieces : nat;
  verification_rate : Q;
  government_verified : bool;
  (** key [content_i] kept as [i] *)
  detailed_results : list (nat * verification)
}.

Section Verifier.
Context {P : Patterns}.

Definition auto_verify_legal_content (text : string) : verification :=
  let case_citations := extract_case_citations text in
  let statute_refs := extract_statute_references text in
  let verifications :=
    map verify_case_citation case_citations
    ++ map verify_statute statute_refs in
  {| text_analyzed := text;
     verifications := verifications;
     warnings := check_hallucination_indicators text;
     confidence_score := calculate_confidence_score verifications |}.

Definition all_text_content (intelligence_data : intelligence) : list string :=
  (match email_data intelligence_data with
   | Some contacts =>
       flat_map (fun contact_emails =>
                   flat_map (fun email =>
                               match email with
                               | Dict (Some content) => [content]
                               | _ => []
                               end) (snd contact_emails)) contacts
   | None => []
   end)
  ++ (match behavioral_analysis intelligence_data with
      | Some s => [s]
      | None => []
      end).

(** [content and len(content.strip()) > 10] *)
Definition substantial (content : string) : bool :=
  truthy content && (10 <? String.length (strip content)).

Fixpoint verify_each (i : nat) (contents : list string)
  : list (nat * verification) :=
  match contents with
  | [] => []
  | content :: t =>
      (if substantial content
       then [(i, auto_verify_legal_content content)]
       else [])
      ++ verify_each (S i) t
  end.

Definition verify_all_legal_information (intelligence_data : intelligence)
  : overall_verification :=
  let verification_results :=
    verify_each 0 (all_text_content intelligence_data) in
  let total_verifications := length verification_results in
  let verified_count :=
    length (filter (fun v => Qle_bool 80 (confidence_score (snd v)))
                   verification_results) in
  {| total_content_pieces := total_verifications;
     verified_pieces := verified_count;
     verification_rate :=
       if 0 <? total_verifications
       then (inject_Z (Z.of_nat verified_count)
             / inject_Z (Z.of_nat total_verifications) * 100)%Q
       else 100%Q;
     government_verified := verified_count =? total_verifications;
     detailed_results := verification_results |}.
End Verifier.

End Master.



(** ** Vocabulary for the properties of the verifier *)

Module MasterTerms.
Import Py PyStr Master.

Section Terms.
Context {P : Patterns}.

(** Some case citation or statute reference is found in the text. *)
Definition has_reference (text : string) : bool :=
  match extract_case_citations text ++ extract_statute_references text with
  | [] => false
  | _ :: _ => true
  end.
End Terms.

End MasterTerms.

(** ** Sample inputs *)

Module Fixtures.
Import Py.

(** A scanner that finds no citation, statute or warning in any text. *)
Definition finds_nothing : Master.Patterns :=
  {| Master.extract_case_citations := fun _ => [];
     Master.extract_statute_references := fun _ => [];
     Master.check_hallucination_indicators := fun _ => [] |}.

(** Contacts whose messages are absent, not dicts, empty or too short. *)
Definition short_messages : Master.intelligence :=
  {| Master.email_data :=
       Some [("agent", [Master.Dict (Some "   ok   "); Master.NotADict;
                        Master.Dict None; Master.Dict (Some "")]);
             ("tenant", [Master.Dict (Some "0123456789")])];
     Master.behavioral_analysis := Some "{}" |}.

(** Helpers that find every pair of events fully related. *)
Definition always_linked : Narrative.Helpers unit :=
  {| Narrative.assess_event_importance := fun _ => Ok "medium";
     Narrative.assess_causal_relationship := fun _ _ => Ok 1%Q;
     Narrative.extract_causal_evidence := fun _ _ => Ok tt |}.

Definition notice (d : option (option datetime)) : Narrative.document :=
  {| Narrative.date := d;
     Narrative.document_type := Some "notice";
     Narrative.parties := Some ["agent@areal.example"; "tenant@example.org"];
     Narrative.title := Some "Notice to vacate" |}.

(** The [n]-th of a run of notices between the same two parties, one per
    microsecond. *)
Definition numbered (n : nat) : Narrative.event :=
  Narrative.document_event (Naive 0)
    (notice (Some (Some (Naive (N.of_nat n))))).

Definition eleven_events : list Narrative.event := map numbered (seq 0 11).

Definition link_between (j i : nat) : Narrative.causal_link unit :=
  {| Narrative.cause_event := numbered j;
     Narrative.effect_event := numbered i;
     Narrative.causal_strength := 1%Q;
     Narrative.evidence := tt |}.

(** One undated and one dated document. *)
Definition undated_and_dated : Narrative.sources :=
  {| Narrative.emails := None;
     Narrative.documents :=
       Some [notice (Some None); notice (Some (Some (Naive 1000)))] |}.

End Fixtures.


(** ** A small mail world for worked examples *)

Module Toy.
Import Py.

(** A message is its header list.  A file holds the text of its own Date
    header; the file [absent.eml] cannot be read, the date [garbage]
    cannot be parsed, a date that ends in [+0000] is aware, and mail of a
    Tuesday is from the tenant.  A file whose name starts with [multipart]
    holds a multipart message without a boundary, which [str] completes
    with the digits that [random] draws; one whose name starts with [<]
    holds a Message-ID that cannot be read and the date [garbage]. *)
Definition mail : Forensic.EmailLib :=
  {| Forensic.Message := list (string * string);
     Forensic.Attachment := unit;
     Forensic.Entropy := string;
     Forensic.read_file := fun p =>
       if String.eqb p "absent.eml"
       then Raise (LibraryError "FileNotFoundError")
       else Ok (list_ascii_of_string
                  (substring 0 (String.length p - 4) p));
     Forensic.message_from_bytes := fun raw =>
       Ok (match raw with
           | [] => [("From", "agent@areal.example")]
           | _ =>
               if prefix "multipart" (string_of_list_ascii raw)
               then [("Content-Type", "multipart/mixed; boundary");
                     ("From", "agent@areal.example")]
               else if prefix "<" (string_of_list_ascii raw)
               then [("Message-ID", "<");
                     ("Date", "garbage")]
               else [("Date", string_of_list_ascii raw);
                     ("From",
                      if prefix "Tue" (string_of_list_ascii raw)
                      then "tenant@example.org"
                      else "agent@areal.example")]
           end);
     Forensic.msg_get := fun m k =>
       match dict_get m k with
       | Some v => if String.eqb v "<" then Raise IndexError else Ok (Some v)
       | None => Ok None
       end;
     Forensic.msg_get_all := fun m k =>
       match dict_get m k with
       | Some v => if String.eqb v "<" then Raise IndexError else Ok [v]
       | None => Ok []
       end;
     Forensic.msg_str := fun seed m =>
       if String.eqb (get_default (dict_get m "Content-Type") "")
                     "multipart/mixed; boundary"
       then
         let boundary := ("===============" ++ seed ++ "==")%string in
         let typed :=
           dict_set m "Content-Type"
                    ("multipart/mixed; boundary=" ++ boundary)%string in
         Ok (String.concat "; " (map snd typed ++ [("--" ++ boundary)%string]),
             typed)
       else Ok (String.concat "; " (map snd m), m);
     Forensic.parsedate_to_datetime := fun d =>
       if String.eqb d "garbage" then Raise (LibraryError "ValueError")
       else if endswith d "+0000"
       then Ok (Aware (Z.of_nat (String.length d)))
       else Ok (Naive (N.of_nat (String.length d)));
     Forensic.parseaddr := fun s => Ok ("", s);
     Forensic.getaddresses := fun l => Ok (map (fun s => ("", s)) l);
     Forensic.sha256_hexdigest := fun c => Ok ("sha256:" ++ c)%string;
     Forensic.received_from := fun _ => None;
     Forensic.extract_attachment_metadata := fun _ => Ok [];
     Forensic.get_email_content := fun _ => Ok "Please find the notice.";
     Forensic.detect_legal_clauses := fun _ => [];
     Forensic.store_email_metadata := fun _ _ _ => Ok tt;
     Forensic.hour_of := fun _ => 9;
     Forensic.split_count := fun _ => 0 |}.

(** Helpers that all return. *)
Definition helpers : Forensic.Helpers (@Forensic.state mail) unit unit :=
  {| Forensic.process_mbox_file := fun st _ => Ok st;
     Forensic.process_zip_archive := fun st _ => Ok st;
     Forensic.process_email_directory := fun st _ => Ok st;
     Forensic.calculate_sentiment_score := fun _ => Ok 0%Q;
     Forensic.detect_manipulation_patterns := fun _ => Ok [];
     Forensic.analyze_urgency_patterns := fun _ => Ok [];
     Forensic.analyze_timeline_gaps := fun _ => Ok tt;
     Forensic.identify_contradictions := fun _ => Ok tt;
     Forensic.analyze_retaliation_patterns := fun _ => Ok tt;
     Forensic.validate_email_authentication := fun _ => Ok tt;
     Forensic.generate_integrity_report := fun _ => Ok tt |}.

(** The state after a batch of files has gone through
    [process_single_eml]. *)
Definition after (paths : list string) : @Forensic.state mail :=
  fold_left (Forensic.process_single_eml (H := helpers) "now" "0") paths
            Forensic.initial_state.

End Toy.


(** ** backend/GMAIL_COMPLETE_EXTRACTION_SYSTEM.py *)

Module Gmail.
Import Py PyStr.

Definition gov_domains : list string :=
  ["vcat.vic.gov.au"; "courts.vic.gov.au"; "vic.gov.au"; "gov.au";
   "austlii.edu.au"; "ombudsman.vic.gov.au"; "consumer.vic.gov.au";
   "housing.vic.gov.au"].

Definition is_government_contact (email_address : string) : bool :=
  existsb (fun domain => contains domain (lower email_address)) gov_domains.

Inductive style : Type := formal | informal | neutral_style.

Definition formal_indicators : list string :=
  ["dear sir/madam"; "yours faithfully"; "reference"; "pursuant to"].
Definition informal_indicators : list string :=
  ["hi"; "thanks"; "cheers"; "regards"].

(** The two counters after the loop over [emails]; an e-mail is kept as
    what its [get('content')] finds. *)
Fixpoint style_counts (emails : list (option string))
    (formal_count informal_count : nat) : nat * nat :=
  match emails with
  | [] => (formal_count, informal_count)
  | email :: rest =>
      let content := lower (get_default email "") in
      style_counts rest
        (formal_count + keyword_hits formal_indicators content)
        (informal_count + keyword_hits informal_indicators content)
  end.

Definition analyze_communication_style (emails : list (option string))
  : style :=
  let counts := style_counts emails 0 0 in
  let formal_count := fst counts in
  let informal_count := snd counts in
  if informal_count <? formal_count then formal
  else if formal_count <? informal_count then informal
  else neutral_style.

End Gmail.

(** ** backend/MASTER_INTELLIGENCE_SYSTEM.py: synthesis and saving *)

Module MasterSynthesis.
Import Py.

Record complexity : Type := {
  number_of_parties : nat;
  complexity_score : nat;
  complexity_level : string
}.

(** [parties] is [len] of the [email_data] of the gathered intelligence. *)
Definition assess_situation_complexity (parties : nat) : complexity :=
  let legal_areas_involved := ["tenancy"; "administrative"; "property"] in
  let government_involvement := true in
  let emotional_complexity := "high" in
  let relationship_complexity := "medium" in
  let complexity_score :=
    list_sum [length legal_areas_involved * 2;
              if government_involvement then 5 else 0;
              if String.eqb emotional_complexity "high" then 3 else 1;
              if String.eqb relationship_complexity "medium" then 2 else 1] in
  {| number_of_parties := parties;
     complexity_score := Nat.min 10 complexity_score;
     complexity_level :=
       if 7 <? complexity_score then "high"
       else if 4 <? complexity_score then "medium"
       else "low" |}.

(** A Python value as [make_serializable] tells values apart: an instance
    of [dict] (its keys are values as well), an instance of [list], a
    value with a [__dict__], another container (a tuple, a set, a
    frozenset) and the values without parts.  A value with a [__dict__] is
    kept as what [str()] does on it, given the number of nested calls that
    the recursion limit still allows: the text, or an exception. *)
#[warnings="-register-all"]
Inductive value : Type :=
| VDict (items : list (value * value))
| VList (items : list value)
| VObject (str : nat -> result string)
| VTuple (items : list value)
| VStr (s : string)
| VNum (q : Q)
| VNone.

(** [str()] on an object that has no [__str__] of its own: the built-in
    takes one level of the recursion limit and returns the text. *)
Definition default_str (text : string) (frames : nat) : result string :=
  match frames with
  | 0 => Raise RecursionError
  | S _ => Ok text
  end.

(** [frames] is the number of nested calls that the recursion limit still
    allows when the method is called: the call takes one, and so does the
    comprehension of a dict or a list before it visits the first item. *)
Fixpoint make_serializable (frames : nat) (obj : value) : result value :=
  match frames with
  | 0 => Raise RecursionError
  | S inside =>
      match obj with
      | VDict items =>
          match inside with
          | 0 => Raise RecursionError
          | S deeper =>
              items' <-
                traverse (fun kv =>
                            v <- make_serializable deeper (snd kv) ;;
                            Ok (fst kv, v)) items ;;
              Ok (VDict items')
          end
      | VList items =>
          match inside with
          | 0 => Raise RecursionError
          | S deeper =>
              items' <- traverse (make_serializable deeper) items ;;
              Ok (VList items')
          end
      | VObject str =>
          s <- str inside ;;
          Ok (VStr s)
      | other => Ok other
      end
  end.




End MasterSynthesis.

(** ** backend/NARRATIVE_INTELLIGENCE_SYSTEM.py: threads and the
       relationship graph *)

Module Threads.
Import Py Narrative.

(** The method that [identify_narrative_threads] calls on [self] without
    the class defining it. *)
Class Helpers : Type := {
  determine_thread_id : event -> result string
}.

Definition as_shipped : Helpers :=
  {| determine_thread_id := fun _ => undefined_method "determine_thread_id" |}.

(** A thread; the participant set is kept as a list without repeats, of
    which only membership is meant. *)
Record thread : Type := {
  events : list event;
  thread_participants : list string;
  theme : string;
  start_date : option datetime;
  end_date : option datetime
}.

(** [s.update(items)] on a set. *)
Definition set_update (s items : list string) : list string :=
  fold_left (fun acc x => if existsb (String.eqb x) acc then acc
                          else acc ++ [x]) items s.

Section Engine.
Context {H : Helpers}.

(** One round of the loop; [max(end_date, timestamp)] asks whether the
    timestamp is greater than the end date. *)
Definition add_to_thread (threads : list (string * thread)) (event : event)
  : result (list (string * thread)) :=
  thread_id <- determine_thread_id event ;;
  let th :=
    match dict_get threads thread_id with
    | Some th => th
    | None =>
        {| events := [];
           thread_participants := [];
           theme := thread_id;
           start_date := timestamp event;
           end_date := timestamp event |}
    end in
  later <- optional_datetime_lt (end_date th) (timestamp event) ;;
  Ok (dict_set threads thread_id
        {| events := events th ++ [event];
           thread_participants :=
             set_update (thread_participants th) (participants event);
           theme := theme th;
           start_date := start_date th;
           end_date := if later then timestamp event else end_date th |}).

Fixpoint threads_from (threads : list (string * thread))
    (timeline : list event) : result (list (string * thread)) :=
  match timeline with
  | [] => Ok threads
  | event :: rest =>
      threads' <- add_to_thread threads event ;;
      threads_from threads' rest
  end.

Definition identify_narrative_threads (timeline : list event)
  : result (list (string * thread)) :=
  threads_from [] timeline.

(** The event belongs to the thread [thread_id]. *)
Definition in_thread (thread_id : string) (event : event) : bool :=
  match determine_thread_id event with
  | Ok i => String.eqb i thread_id
  | Raise _ => false
  end.
End Engine.

End Threads.

Module Relationship.
Import Py PyStr.

(** The attributes of an edge: [weight] and [type]. *)
Record edge_data : Type := {
  weight : nat;
  kind : string
}.

(** A [networkx.DiGraph] as far as the builder uses it: the nodes in
    order of arrival and the attribute record of each directed edge. *)
Record digraph : Type := {
  nodes : list string;
  edges : list ((string * string) * edge_data)
}.

Definition empty : digraph := {| nodes := []; edges := [] |}.

Definition edge_eqb (a b : string * string) : bool :=
  String.eqb (fst a) (fst b) && String.eqb (snd a) (snd b).

Fixpoint edge_get (es : list ((string * string) * edge_data))
    (e : string * string) : option edge_data :=
  match es with
  | [] => None
  | (e', d) :: t => if edge_eqb e' e then Some d else edge_get t e
  end.

Fixpoint edge_set (es : list ((string * string) * edge_data))
    (e : string * string) (d : edge_data)
  : list ((string * string) * edge_data) :=
  match es with
  | [] => [(e, d)]
  | (e', d') :: t =>
      if edge_eqb e' e then (e, d) :: t else (e', d') :: edge_set t e d
  end.

Definition add_node (ns : list string) (n : string) : list string :=
  if existsb (String.eqb n) ns then ns else ns ++ [n].

Definition has_edge (g : digraph) (u v : string) : bool :=
  match edge_get (edges g) (u, v) with Some _ => true | None => false end.

(** [G.add_edge(u, v, weight=w, type=t)]: both nodes are added and the
    attributes of the edge are set, also when the edge is there already. *)
Definition add_edge (g : digraph) (u v : string) (w : nat) (t : string)
  : digraph :=
  {| nodes := add_node (add_node (nodes g) u) v;
     edges := edge_set (edges g) (u, v) {| weight := w; kind := t |} |}.

(** [G[u][v]['weight'] += 1] on an edge that is there. *)
Definition bump_weight (g : digraph) (u v : string) : digraph :=
  match edge_get (edges g) (u, v) with
  | Some d =>
      {| nodes := nodes g;
         edges := edge_set (edges g) (u, v)
                    {| weight := weight d + 1; kind := kind d |} |}
  | None => g
  end.

(** A communication: what [get('sender')] and [get('recipient')] find. *)
Record communication : Type := {
  sender : option string;
  recipient : option string
}.

Definition add_communication (g : digraph) (comm : communication) : digraph :=
  let sender := get_default (sender comm) "" in
  let recipient := get_default (recipient comm) "" in
  if truthy sender && truthy recipient
  then if has_edge g sender recipient
       then bump_weight g sender recipient
       else add_edge g sender recipient 1 "communication"
  else g.

(** The two loops over the parties of one document. *)
Fixpoint add_parties (g : digraph) (parties : list string) : digraph :=
  match parties with
  | [] => g
  | party1 :: rest =>
      add_parties
        (fold_left (fun g party2 => add_edge g party1 party2 5 "legal") rest g)
        rest
  end.

(** [comm_data] maps a contact to its communications; a document is kept
    as what its [get('parties')] finds. *)
Definition build_relationship_graph (g : digraph)
    (comm_data : list (string * list communication))
    (legal_docs : list (option (list string))) : digraph :=
  let g1 :=
    fold_left (fun g contact => fold_left add_communication (snd contact) g)
              comm_data g in
  fold_left (fun g doc => add_parties g (get_default doc [])) legal_docs g1.

(** The weight of an edge, 0 when it is not there. *)
Definition weight_of (g : digraph) (e : string * string) : nat :=
  match edge_get (edges g) e with
  | Some d => weight d
  | None => 0
  end.

(** The communication goes from [fst e] to [snd e], both non-empty. *)
Definition goes (e : string * string) (comm : communication) : bool :=
  truthy (get_default (sender comm) "")
  && truthy (get_default (recipient comm) "")
  && edge_eqb (get_default (sender comm) "", get_default (recipient comm) "") e.

End Relationship.

(** ** More sample inputs *)

Module Samples.
Import Py.

(** Two dated notices, the later one listed first. *)
Definition two_dated : Narrative.sources :=
  {| Narrative.emails := None;
     Narrative.documents :=
       Some [Fixtures.notice (Some (Some (Naive 2000)));
             Fixtures.notice (Some (Some (Naive 1000)))] |}.

(** One e-mail and one notice without a date. *)
Definition mail_and_notice : Narrative.sources :=
  {| Narrative.emails :=
       Some [{| Narrative.email_timestamp := Some (Naive 3000);
                Narrative.sender := "agent@areal.example";
                Narrative.recipient := "tenant@example.org";
                Narrative.email_subject := "Notice" |}];
     Narrative.documents := Some [Fixtures.notice None] |}.

(** Threads named by the subject of the event. *)
Definition by_subject : Threads.Helpers :=
  {| Threads.determine_thread_id := fun e => Ok (Narrative.content e) |}.

(** Three dated events on two subjects. *)
Definition three_events : list Narrative.event :=
  [Narrative.document_event (Naive 0)
     {| Narrative.date := Some (Some (Naive 1000));
        Narrative.document_type := None;
        Narrative.parties := Some ["agent@areal.example"];
        Narrative.title := Some "Notice" |};
   Narrative.document_event (Naive 0)
     {| Narrative.date := Some (Some (Naive 2000));
        Narrative.document_type := None;
        Narrative.parties := Some ["tenant@example.org"];
        Narrative.title := Some "Repairs" |};
   Narrative.document_event (Naive 0)
     {| Narrative.date := Some (Some (Naive 3000));
        Narrative.document_type := None;
        Narrative.parties := Some ["tenant@example.org"];
        Narrative.title := Some "Notice" |}].

(** A mean that adds the scores from left to right and divides by their
    number. *)
Definition running_mean : Narrative.Numpy :=
  {| Narrative.np_mean := fun l =>
       (fold_left PrimFloat.add l 0
        / fold_left (fun n _ => n + 1) l 0)%float |}.

(** Three parties, one weak and two at full strength. *)
Definition one_weak_two_strong : list (string * option float) :=
  [("agent@areal.example", Some 0.1%float);
   ("tenant@example.org", Some 1%float);
   ("registry@vcat.example", Some 1%float)].


(** A graph library that knows two nodes and gives fixed centralities. *)
Definition two_node_graphs : Narrative.Networkx :=
  {| Narrative.Graph := unit;
     Narrative.nodes := fun _ => ["agent@areal.example"; "tenant@example.org"];
     Narrative.betweenness_centrality := fun _ => Ok [];
     Narrative.closeness_centrality :=
       fun _ => Ok [("agent@areal.example", 0%Q);
                    ("tenant@example.org", 1%Q)];
     Narrative.eigenvector_centrality :=
       fun _ _ => Ok [("agent@areal.example", (1 # 2)%Q);
                      ("tenant@example.org", (1 # 2)%Q)] |}.

End Samples.


(** * Properties *)

(** ** Substring tests and keyword counts *)

Module PyStrFacts.
Import PyStr.

Lemma contains_occurrences (needle hay : string) :
  contains needle hay = (1 <=? occurrences needle hay).
Proof.
  induction hay as [|c t IH]; cbn [contains occurrences].
  - destruct (prefix needle ""); reflexivity.
  - destruct (prefix needle (String c t)); [reflexivity|exact IH].
Qed.

Lemma keyword_hits_cons (k : string) (ks : list string) (text : string) :
  keyword_hits (k :: ks) text
  = (if contains k text then 1 else 0) + keyword_hits ks text.
Proof.
  unfold keyword_hits; simpl. destruct (contains k text); reflexivity.
Qed.

Lemma keyword_hits_length (keywords : list string) (text : string) :
  keyword_hits keywords text
  = length (filter (fun k => contains k text) keywords).
Proof.
  induction keywords as [|k ks IH]; [reflexivity|].
  rewrite keyword_hits_cons, IH; simpl.
  destruct (contains k text); reflexivity.
Qed.

Lemma keyword_hits_present (keywords : list string) (text : string) :
  keyword_hits keywords text
  = length (filter (fun k => 1 <=? occurrences k text) keywords).
Proof.
  rewrite keyword_hits_length. f_equal.
  apply filter_ext. intro k. apply contains_occurrences.
Qed.

Lemma keyword_hits_le_length (keywords : list string) (text : string) :
  keyword_hits keywords text <= length keywords.
Proof.
  rewrite keyword_hits_length. apply filter_length_le.
Qed.

Lemma keyword_hits_le_occurrences (keywords : list string) (text : string) :
  keyword_hits keywords text <= total_occurrences keywords text.
Proof.
  induction keywords as [|k ks IH]; [apply Nat.le_refl|].
  rewrite keyword_hits_cons. unfold total_occurrences in *; simpl.
  rewrite contains_occurrences.
  destruct (Nat.leb_spec 1 (occurrences k text)); lia.
Qed.

End PyStrFacts.

(** ** Tone classification *)

Section Tone.
Import Forensic.

(** [aggressive] needs a strict majority over both other counts. *)
Lemma tone_aggressive_iff (content : string) :
  analyze_language_tone content = aggressive
  <-> Nat.max (passive_score content) (professional_score content)
      < aggressive_score content.
Proof.
  unfold analyze_language_tone, aggressive_score, passive_score,
    professional_score.
  set (a := PyStr.keyword_hits aggressive_indicators _).
  set (p := PyStr.keyword_hits passive_indicators _).
  set (r := PyStr.keyword_hits professional_indicators _).
  destruct (Nat.ltb_spec (Nat.max p r) a) as [Hlt|Hge].
  - split; [intros _; exact Hlt|reflexivity].
  - split; [|lia].
    destruct (r <? p); [discriminate|].
    destruct (0 <? r); discriminate.
Qed.

(** C1, as the code has it: when the aggressive and the passive counts are
    equal and no professional keyword is present, the tone is [passive] if
    the common count is positive and [neutral] if it is zero; it is never
    [aggressive]. *)
Theorem C1_tie_goes_to_passive (content : string) :
  aggressive_score content = passive_score content ->
  professional_score content = 0 ->
  analyze_language_tone content
  = if 0 <? passive_score content then passive else neutral.
Proof.
  unfold analyze_language_tone, aggressive_score, passive_score,
    professional_score.
  set (a := PyStr.keyword_hits aggressive_indicators _).
  set (p := PyStr.keyword_hits passive_indicators _).
  set (r := PyStr.keyword_hits professional_indicators _).
  intros Hap Hr. rewrite Hr, Hap, Nat.max_0_r, Nat.ltb_irrefl.
  destruct (0 <? p); reflexivity.
Qed.

Lemma C1_tie_goes_to_passive_witness :
  analyze_language_tone "You MUST pay immediately, please, kindly."
  = passive.
Proof.
  exact (C1_tie_goes_to_passive
           "You MUST pay immediately, please, kindly." eq_refl eq_refl).
Defined.

(** C1 as stated fails: two aggressive hits ("must", "immediately"), two
    passive hits ("please", "kindly"), no professional hit, and the tone is
    not [aggressive]. *)
Lemma C1_tie_not_aggressive :
  aggressive_score "You MUST pay immediately, please, kindly." = 2
  /\ passive_score "You MUST pay immediately, please, kindly." = 2
  /\ professional_score "You MUST pay immediately, please, kindly." = 0
  /\ analyze_language_tone "You MUST pay immediately, please, kindly."
     <> aggressive.
Proof.
  repeat split; try reflexivity. vm_compute. discriminate.
Qed.

End Tone.

(** ** Behavioural indicator scores *)

Section Indicators.
Import PyStr PyStrFacts.

(** What [detect_emotions] reports for an emotion is the count of its
    group, and only positive counts are reported. *)
Lemma detect_emotions_entry (text emotion : string) (score : nat) :
  In (emotion, score) (Narrative.detect_emotions text) ->
  exists keywords,
    In (emotion, keywords) Narrative.emotion_keywords
    /\ score = keyword_hits keywords (lower text)
    /\ 0 < score.
Proof.
  unfold Narrative.detect_emotions. rewrite in_flat_map.
  intros [[e kws] [Hin Hentry]]. cbn [fst snd] in Hentry.
  destruct (Nat.ltb_spec 0 (keyword_hits kws (lower text))) as [Hpos|Hz].
  - destruct Hentry as [Heq|[]]. inversion Heq; subst.
    exists kws. auto.
  - destruct Hentry.
Qed.

(** C8, as the code has it: the score of a keyword group on a body is the
    number of the group's keywords that occur at least once in the
    lower-cased body; a keyword that occurs several times counts once.  So
    the score is at most the size of the group and at most the number of
    occurrences, and it is a natural number. *)
Theorem C8_score_counts_keywords_present
    (keywords : list string) (body : string) :
  keyword_hits keywords (lower body)
  = length (filter (fun k => 1 <=? occurrences k (lower body)) keywords)
  /\ keyword_hits keywords (lower body) <= length keywords
  /\ keyword_hits keywords (lower body)
     <= total_occurrences keywords (lower body).
Proof.
  split; [apply keyword_hits_present|].
  split; [apply keyword_hits_le_length|apply keyword_hits_le_occurrences].
Qed.

(** C8 as stated fails: "urgent" occurs three times and the urgency score
    is 1, not 3; likewise "must" for the aggressive count of the tone. *)
Lemma C8_repeated_keyword_counts_once :
  Py.dict_get (Narrative.detect_emotions "Urgent, urgent, URGENT!") "urgency"
  = Some 1
  /\ total_occurrences (Narrative.emotion_group "urgency")
       (lower "Urgent, urgent, URGENT!") = 3
  /\ Forensic.aggressive_score "must must must" = 1
  /\ total_occurrences Forensic.aggressive_indicators (lower "must must must")
     = 3.
Proof.
  repeat split; reflexivity.
Qed.

End Indicators.

(** ** Machiavellian index and risk flags *)

Section MachiavellianIndex.
Import Machiavellian.

(** C9: each trait score is 0 or 1, the index is a quarter of their sum and
    so lies in [0, 1], and the "High Machiavellian traits" flag is raised
    exactly when all four traits fire. *)
Theorem C9_machiavellian_index (text : string) :
  let s := score_machiavellian_traits text in
  (deception s = 0 \/ deception s = 1)
  /\ (emotional_control s = 0 \/ emotional_control s = 1)
  /\ (strategic_vagueness s = 0 \/ strategic_vagueness s = 1)
  /\ (dominance_cue s = 0 \/ dominance_cue s = 1)
  /\ (machiavellian_index s
      == inject_Z (Z.of_nat (deception s + emotional_control s
                             + strategic_vagueness s + dominance_cue s)) / 4)%Q
  /\ (0 <= machiavellian_index s)%Q
  /\ (machiavellian_index s <= 1)%Q
  /\ (In "High Machiavellian traits" (flags (build_risk_profile text))
      <-> deception s = 1 /\ emotional_control s = 1
          /\ strategic_vagueness s = 1 /\ dominance_cue s = 1).
Proof.
  unfold build_risk_profile, score_machiavellian_traits.
  destruct (PyStr.contains "unforeseen circumstance" (PyStr.lower text));
  destruct (PyStr.contains "as per our agreement" (PyStr.lower text));
  destruct (PyStr.contains "regrettably" (PyStr.lower text));
  destruct (existsb _ _);
  destruct (PyStr.contains "withhold" (PyStr.lower text));
  vm_compute;
  (repeat split;
   try (left; reflexivity); try (right; reflexivity);
   try reflexivity; try discriminate;
   try (intros; intuition (try discriminate; try congruence))).
Qed.

End MachiavellianIndex.

(** ** Success probability of a strategy *)

Section ProbabilityCases.
Import Py Narrative.
Context {NP : Numpy}.

Lemma base_probability_cases (strategy : string) :
  In (base_probability strategy) [0.6; 0.75; 0.8; 0.7; 0.5; 0.85]%float.
Proof.
  unfold base_probability, base_probabilities. cbn [dict_get].
  repeat match goal with
         | |- context [String.eqb ?a strategy] =>
             destruct (String.eqb a strategy)
         end;
  cbn [get_default In]; auto 10.
Qed.

(** The adjustment is nothing or one tenth, and it is one tenth exactly
    when there is relationship data whose mean score is above 0.7. *)
Lemma adjustments_cases (relationship_data : list (string * option float)) :
  (adjustments relationship_data = 0.1%float
   /\ relationship_data <> []
   /\ PrimFloat.ltb 0.7 (np_mean (power_scores relationship_data)) = true)
  \/ (adjustments relationship_data = 0%float
      /\ (relationship_data = []
          \/ PrimFloat.ltb 0.7 (np_mean (power_scores relationship_data))
             = false)).
Proof.
  unfold adjustments. destruct relationship_data as [|r rs].
  - right. split; [reflexivity|left; reflexivity].
  - cbv zeta.
    destruct (PrimFloat.ltb 0.7 (np_mean (power_scores (r :: rs)))).
    + left. split; [reflexivity|]. split; [discriminate|reflexivity].
    + right. split; [reflexivity|right; reflexivity].
Qed.

(** [min(1.0, x)] is at most 1 for every float [x], a NaN included. *)
Lemma float_min_le_1 (x : float) : PrimFloat.leb (float_min 1 x) 1 = true.
Proof.
  unfold float_min. destruct (PrimFloat.ltb x 1) eqn:Hlt; [|reflexivity].
  rewrite leb_spec. rewrite ltb_spec in Hlt.
  unfold SFleb. unfold SFltb in Hlt.
  destruct (SFcompare (Prim2SF x) (Prim2SF 1)) as [[| |]|];
    first [reflexivity|discriminate].
Qed.

End ProbabilityCases.

(** Every value the function can return, by strategy and adjustment. *)
Ltac each_probability strategy relationship_data :=
  unfold Narrative.calculate_success_probability, Narrative.reported;
  let Hb := fresh "Hb" in
  let Ha := fresh "Ha" in
  pose proof (base_probability_cases strategy) as Hb;
  cbn [In] in Hb;
  destruct (adjustments_cases relationship_data)
    as [(Ha & _)|(Ha & _)];
  rewrite Ha;
  repeat (destruct Hb as [Hb|Hb]; [rewrite <- Hb|]);
  try contradiction.

Section SuccessProbability.
Import Py Narrative NarrativeTerms.
Context {NP : Numpy}.

(** The return statement never reports more than 1.0, whatever the
    strategy and whatever [adjustments] has come to. *)
Lemma reported_le_1 (strategy : string) (adjustments : float) :
  PrimFloat.leb (reported strategy adjustments) 1 = true.
Proof. unfold reported. apply float_min_le_1. Qed.

(** C7: for every strategy and every input the success probability lies in
    [0, 1].  It is what the return statement reports for the adjustments
    made, [min(1.0, base + adjustments)], which on the sums the function
    forms is the clamp to [0, 1]; for the strategy of base 0.85 and
    adjustments of 0.3 that statement reports exactly 1.0, and it never
    reports more than 1.0. *)
Theorem C7_success_probability_clamped {Data : Type} (strategy : string)
    (narrative_data : Data)
    (relationship_data : list (string * option float)) :
  let p :=
    calculate_success_probability strategy narrative_data
      relationship_data in
  p = reported strategy (adjustments relationship_data)
  /\ p = clamp_to_unit
           (base_probability strategy + adjustments relationship_data)
  /\ PrimFloat.leb 0 p = true
  /\ PrimFloat.leb p 1 = true
  /\ base_probability "settlement_negotiation" = 0.85%float
  /\ reported "settlement_negotiation" 0.3 = 1%float
  /\ clamp_to_unit (0.85 + 0.3) = 1%float
  /\ (forall strategy' adjustments' : _,
        PrimFloat.leb (reported strategy' adjustments') 1 = true).
Proof.
  cbv zeta. split; [reflexivity|].
  split; [each_probability strategy relationship_data; reflexivity|].
  split; [each_probability strategy relationship_data; reflexivity|].
  split; [apply reported_le_1|].
  split; [reflexivity|]. split; [reflexivity|].
  split; [reflexivity|exact reported_le_1].
Qed.

End SuccessProbability.

(** ** Verification of legal content *)

Section Verification.
Import Master.
Context {P : Patterns}.

Lemma verify_each_nothing (contents : list string) (i : nat) :
  (forall content, In content contents -> substantial content = false) ->
  verify_each i contents = [].
Proof.
  revert i. induction contents as [|c t IH]; intros i Hall; [reflexivity|].
  cbn [verify_each]. rewrite (Hall c (or_introl eq_refl)).
  apply IH. intros c' Hin. apply Hall. right. exact Hin.
Qed.

(** C10: when no content piece qualifies for verification, the report has
    0 content pieces, a verification rate of 100 and
    [government_verified = True]. *)
Theorem C10_empty_evidence_is_verified (intelligence_data : intelligence) :
  (forall content,
      In content (all_text_content intelligence_data) ->
      substantial content = false) ->
  let report := verify_all_legal_information intelligence_data in
  total_content_pieces report = 0
  /\ verified_pieces report = 0
  /\ verification_rate report = 100%Q
  /\ government_verified report = true
  /\ detailed_results report = [].
Proof.
  intros Hall. unfold verify_all_legal_information.
  rewrite (verify_each_nothing _ 0 Hall). repeat split.
Qed.

End Verification.

Lemma C10_empty_evidence_is_verified_witness :
  Master.total_content_pieces
    (@Master.verify_all_legal_information Fixtures.finds_nothing Fixtures.short_messages) = 0
  /\ Master.verification_rate
       (@Master.verify_all_legal_information Fixtures.finds_nothing Fixtures.short_messages)
     = 100%Q
  /\ Master.government_verified
       (@Master.verify_all_legal_information Fixtures.finds_nothing Fixtures.short_messages)
     = true.
Proof.
  assert (Hall : forall content,
             In content (@Master.all_text_content Fixtures.short_messages) ->
             @Master.substantial content = false).
  { intros content Hin. vm_compute in Hin.
    repeat (destruct Hin as [<-|Hin]; [reflexivity|]). destruct Hin. }
  destruct (@C10_empty_evidence_is_verified Fixtures.finds_nothing Fixtures.short_messages Hall)
    as (Ht & _ & Hr & Hg & _).
  repeat split; assumption.
Defined.

(** By contrast one substantial piece in which nothing is found has
    confidence 0 and makes the report unverified. *)
Lemma one_uncited_piece_is_unverified :
  let report :=
    @Master.verify_all_legal_information Fixtures.finds_nothing
      {| Master.email_data :=
           Some [("agent", [Master.Dict (Some "You must vacate by Friday.")])];
         Master.behavioral_analysis := None |} in
  Master.total_content_pieces report = 1
  /\ Master.verified_pieces report = 0
  /\ Master.government_verified report = false.
Proof. repeat split. Qed.

(** ** Metadata extraction, the clock and the random state *)

(** Case analysis on the calls of a chain, in the order they are made. *)
Ltac next_call :=
  match goal with
  | H : Py.bind ?m _ = Py.Ok _ |- _ =>
      destruct m eqn:?; cbn [Py.bind] in H; [|discriminate H]
  end.

Section Idempotence.
Import Py Forensic.
Context {L : EmailLib}.

(** What a returned record owes to the clock and to [str(msg)]. *)
Lemma extraction_hash (now : string) (seed : Entropy) (msg left : Message)
    (m : metadata) :
  extract_complete_email_metadata now seed msg = Ok (m, left) ->
  extraction_timestamp m = now
  /\ exists text,
       msg_str seed msg = Ok (text, left)
       /\ sha256_hexdigest text = Ok (message_hash m).
Proof.
  intros Hm. unfold extract_complete_email_metadata in Hm.
  repeat next_call.
  inversion Hm; subst; cbn [extraction_timestamp message_hash].
  split; [reflexivity|].
  match goal with
  | Hs : msg_str seed msg = Ok ?p |- _ =>
      exists (fst p); destruct p; cbn [fst snd]; auto
  end.
Qed.

(** Every other field is read from the parsed message alone. *)
Lemma extraction_fields (now1 now2 : string) (seed1 seed2 : Entropy)
    (msg left1 left2 : Message) (m1 m2 : metadata) :
  extract_complete_email_metadata now1 seed1 msg = Ok (m1, left1) ->
  extract_complete_email_metadata now2 seed2 msg = Ok (m2, left2) ->
  without_hash m1 = without_hash m2.
Proof.
  intros H1 H2. unfold extract_complete_email_metadata in H1, H2.
  repeat match goal with
         | H : bind ?m _ = Ok _ |- _ =>
             destruct m eqn:?; cbn [bind] in H1, H2;
             [|first [discriminate H1|discriminate H2]]
         end.
  inversion H1; inversion H2; subst. reflexivity.
Qed.

(** With the random state held fixed, two extractions from the same bytes
    agree in everything but the extraction timestamp, or fail alike. *)
Lemma extraction_same_seed (raw : list ascii) (now1 now2 : string)
    (seed : Entropy) :
  same_up_to_timestamp (extract_from_bytes now1 seed raw)
                       (extract_from_bytes now2 seed raw).
Proof.
  unfold extract_from_bytes, extract_complete_email_metadata.
  repeat match goal with
         | |- context [bind ?m _] =>
             destruct m; cbn [bind same_up_to_timestamp];
             [|reflexivity]
         end.
  cbn [fst]. split; reflexivity.
Qed.

(** C6 at a failing input: a message whose serialisation depends on the
    random state, as that of a multipart message without a boundary does.
    The message hash is the digest of [str(msg)], not of the bytes read:
    two extractions from the same bytes whose serialisations have
    different digests return different hashes, while every other field
    but the extraction timestamp is the same. *)
Theorem C6_hash_follows_serialisation (raw : list ascii) (msg : Message)
    (now1 now2 : string) (seed1 seed2 : Entropy)
    (text1 text2 : string) (left1 left2 : Message) (m1 m2 : metadata) :
  message_from_bytes raw = Ok msg ->
  msg_str seed1 msg = Ok (text1, left1) ->
  msg_str seed2 msg = Ok (text2, left2) ->
  sha256_hexdigest text1 <> sha256_hexdigest text2 ->
  extract_from_bytes now1 seed1 raw = Ok m1 ->
  extract_from_bytes now2 seed2 raw = Ok m2 ->
  message_hash m1 <> message_hash m2
  /\ sha256_hexdigest text1 = Ok (message_hash m1)
  /\ sha256_hexdigest text2 = Ok (message_hash m2)
  /\ without_hash m1 = without_hash m2.
Proof.
  intros Hparse Hs1 Hs2 Hne H1 H2. unfold extract_from_bytes in H1, H2.
  rewrite Hparse in H1, H2. cbn [bind] in H1, H2.
  destruct (extract_complete_email_metadata now1 seed1 msg)
    as [[r1 l1]|e1] eqn:He1; cbn [bind fst] in H1; [|discriminate H1].
  destruct (extract_complete_email_metadata now2 seed2 msg)
    as [[r2 l2]|e2] eqn:He2; cbn [bind fst] in H2; [|discriminate H2].
  inversion H1; inversion H2; subst r1 r2.
  destruct (extraction_hash _ _ _ _ _ He1) as (_ & t1 & Ht1 & Hh1).
  destruct (extraction_hash _ _ _ _ _ He2) as (_ & t2 & Ht2 & Hh2).
  rewrite Hs1 in Ht1. rewrite Hs2 in Ht2.
  inversion Ht1; inversion Ht2; subst.
  split; [|split; [exact Hh1|split; [exact Hh2|]]].
  - intro Heq. apply Hne. rewrite Hh1, Hh2, Heq. reflexivity.
  - exact (extraction_fields _ _ _ _ _ _ _ _ _ He1 He2).
Qed.

End Idempotence.

Lemma C6_hash_follows_serialisation_witness :
  exists m1 m2,
    @Forensic.extract_from_bytes Toy.mail "now" "5235762484625411051"
      (list_ascii_of_string "multipart") = Py.Ok m1
    /\ @Forensic.extract_from_bytes Toy.mail "later" "5797897655251994591"
         (list_ascii_of_string "multipart") = Py.Ok m2
    /\ Forensic.message_hash m1 <> Forensic.message_hash m2
    /\ Forensic.without_hash m1 = Forensic.without_hash m2.
Proof.
  eexists. eexists. split; [reflexivity|]. split; [reflexivity|].
  destruct (@C6_hash_follows_serialisation Toy.mail
              (list_ascii_of_string "multipart")
              [("Content-Type", "multipart/mixed; boundary");
               ("From", "agent@areal.example")]
              "now" "later" "5235762484625411051" "5797897655251994591"
              _ _ _ _ _ _ eq_refl eq_refl eq_refl
              ltac:(vm_compute; discriminate) eq_refl eq_refl)
    as (Hne & _ & _ & Hsame).
  split; assumption.
Defined.


(** ** The causal map looks back five events *)

Section CausalWindow.
Import Py Narrative.
Context {Evidence : Type} {H : Helpers Evidence}.

Lemma look_back_spec (i j : nat) :
  In j (look_back i) <-> j < i /\ i <= j + 5.
Proof. unfold look_back. rewrite in_seq. lia. Qed.

Lemma look_back_loop_window (timeline : list event) (event : event) (i : nat)
    (js : list nat) (acc out : list (causal_link Evidence)) :
  nth_error timeline i = Some event ->
  (forall j, In j js -> j < i /\ i <= j + 5) ->
  Forall (link_in_window timeline) acc ->
  look_back_loop timeline event js acc = Ok out ->
  Forall (link_in_window timeline) out.
Proof.
  intros Hi. revert acc.
  induction js as [|j js IH]; intros acc Hjs Hacc Hrun; cbn in Hrun.
  - inversion Hrun; subst. exact Hacc.
  - destruct (nth_error timeline j) as [previous|] eqn:Hj; [|discriminate].
    destruct (assess_causal_relationship previous event) as [s|e] eqn:Hs;
      cbn [bind] in Hrun; [|discriminate].
    assert (Hjs' : forall j', In j' js -> j' < i /\ i <= j' + 5)
      by (intros j' Hin; apply Hjs; right; exact Hin).
    destruct (Qlt_le_dec causal_threshold s) as [Hgt|Hle].
    + destruct (extract_causal_evidence previous event) as [ev|e];
        cbn [bind] in Hrun; [|discriminate].
      apply IH in Hrun; [exact Hrun|exact Hjs'|].
      apply Forall_app. split; [exact Hacc|].
      constructor; [|constructor].
      destruct (Hjs j (or_introl eq_refl)) as [Hlt Hle].
      exists i, j. cbn. auto 10.
    + apply IH in Hrun; assumption.
Qed.

Lemma enumerate_loop_window (timeline rest : list event) (i : nat)
    (acc out : list (causal_link Evidence)) :
  (forall k, nth_error rest k = nth_error timeline (i + k)) ->
  Forall (link_in_window timeline) acc ->
  enumerate_loop timeline i rest acc = Ok out ->
  Forall (link_in_window timeline) out.
Proof.
  revert i acc.
  induction rest as [|event rest IH]; intros i acc Hrest Hacc Hrun;
    cbn in Hrun.
  - inversion Hrun; subst. exact Hacc.
  - destruct (look_back_loop timeline event (look_back i) acc) as [acc'|e]
      eqn:Hinner; cbn [bind] in Hrun; [|discriminate].
    apply IH in Hrun; [exact Hrun| |].
    + intro k. specialize (Hrest (S k)). cbn [nth_error] in Hrest.
      rewrite Hrest. f_equal. lia.
    + apply look_back_loop_window with (i := i) in Hinner; try assumption.
      * rewrite <- (Nat.add_0_r i), <- Hrest. reflexivity.
      * intro j. apply look_back_spec.
Qed.

Lemma causal_map_window (timeline : list event)
    (links : list (causal_link Evidence)) :
  build_causal_relationship_map timeline = Ok links ->
  Forall (link_in_window timeline) links.
Proof.
  intros Hrun. unfold build_causal_relationship_map in Hrun.
  apply enumerate_loop_window in Hrun; [exact Hrun| |constructor].
  intro k. reflexivity.
Qed.

(** C4: every link of the causal map has its cause strictly before its
    effect in the timeline and at most five places before it, and a
    strength above the threshold 0.3. *)
Theorem C4_causal_links_in_window (timeline : list event)
    (links : list (causal_link Evidence)) (link : causal_link Evidence) :
  build_causal_relationship_map timeline = Ok links ->
  In link links ->
  link_in_window timeline link.
Proof.
  intros Hrun Hin. apply causal_map_window in Hrun.
  rewrite Forall_forall in Hrun. apply Hrun. exact Hin.
Qed.

(** On a timeline without repeated events the positions are the only
    ones: whatever indices the two events of a link sit at, the cause is
    one to five places before the effect. *)
Lemma causal_links_positions (timeline : list event)
    (links : list (causal_link Evidence)) (link : causal_link Evidence)
    (i j : nat) :
  NoDup timeline ->
  build_causal_relationship_map timeline = Ok links ->
  In link links ->
  nth_error timeline j = Some (cause_event link) ->
  nth_error timeline i = Some (effect_event link) ->
  j < i /\ i <= j + 5.
Proof.
  intros Hnd Hrun Hin Hj Hi.
  apply causal_map_window in Hrun. rewrite Forall_forall in Hrun.
  destruct (Hrun link Hin) as (i' & j' & Hj' & Hi' & Hlt & Hle & _).
  assert (i = i').
  { apply (proj1 (NoDup_nth_error timeline) Hnd).
    - apply nth_error_Some. rewrite Hi. discriminate.
    - congruence. }
  assert (j = j').
  { apply (proj1 (NoDup_nth_error timeline) Hnd).
    - apply nth_error_Some. rewrite Hj. discriminate.
    - congruence. }
  subst. auto.
Qed.

End CausalWindow.

Section CausalMapRuns.
Import Py Narrative.
Context {Evidence : Type} {H : Helpers Evidence}.
Hypothesis assess_returns :
  forall a b, exists s, assess_causal_relationship a b = Ok s.
Hypothesis evidence_returns :
  forall a b, exists ev, extract_causal_evidence a b = Ok ev.

Lemma look_back_loop_returns (timeline : list event) (event : event)
    (js : list nat) (acc : list (causal_link Evidence)) :
  (forall j, In j js -> j < length timeline) ->
  exists out, look_back_loop timeline event js acc = Ok out.
Proof.
  revert acc. induction js as [|j js IH]; intros acc Hjs; cbn.
  - eauto.
  - destruct (nth_error timeline j) as [previous|] eqn:Hj.
    + destruct (assess_returns previous event) as [s ->]. cbn [bind].
      assert (Hjs' : forall j', In j' js -> j' < length timeline)
        by (intros j' Hin; apply Hjs; right; exact Hin).
      destruct (Qlt_le_dec causal_threshold s).
      * destruct (evidence_returns previous event) as [ev ->]. cbn [bind].
        apply IH. exact Hjs'.
      * apply IH. exact Hjs'.
    + apply nth_error_None in Hj.
      specialize (Hjs j (or_introl eq_refl)). lia.
Qed.

Lemma enumerate_loop_returns (timeline rest : list event) (i : nat)
    (acc : list (causal_link Evidence)) :
  i + length rest <= length timeline ->
  exists out, enumerate_loop timeline i rest acc = Ok out.
Proof.
  revert i acc. induction rest as [|event rest IH]; intros i acc Hlen; cbn.
  - eauto.
  - cbn [length] in Hlen.
    destruct (look_back_loop_returns timeline event (look_back i) acc)
      as [acc' ->].
    + intros j Hj. apply look_back_spec in Hj. lia.
    + cbn [bind]. apply IH. lia.
Qed.

(** X28.  With helpers that return, the causal map is produced for every
    timeline: the index look-ups never leave the list. *)
Lemma causal_map_returns (timeline : list event) :
  exists links, build_causal_relationship_map timeline = Ok links.
Proof.
  unfold build_causal_relationship_map.
  apply enumerate_loop_returns. lia.
Qed.

End CausalMapRuns.

(** In the class as the repository has it the first look back fails. *)
Lemma causal_map_as_shipped (a b : Narrative.event)
    (rest : list Narrative.event) :
  @Narrative.build_causal_relationship_map unit Narrative.as_shipped
    (a :: b :: rest)
  = Py.Raise (Py.AttributeError "assess_causal_relationship").
Proof. reflexivity. Qed.

Lemma eleven_events_map :
  exists links,
    @Narrative.build_causal_relationship_map unit Fixtures.always_linked
      Fixtures.eleven_events = Py.Ok links
    /\ length links = 40
    /\ In (Fixtures.link_between 5 10) links
    /\ ~ In (Fixtures.link_between 3 10) links.
Proof.
  eexists. split; [vm_compute; reflexivity|].
  split; [reflexivity|]. split.
  - vm_compute. tauto.
  - vm_compute. intuition discriminate.
Qed.

Lemma C4_causal_links_in_window_witness :
  @Narrative.link_in_window unit Fixtures.always_linked
    Fixtures.eleven_events (Fixtures.link_between 5 10).
Proof.
  eapply (@C4_causal_links_in_window unit Fixtures.always_linked
            Fixtures.eleven_events).
  - vm_compute. reflexivity.
  - vm_compute. tauto.
Defined.

(** ** Sorting with a comparison that can raise *)

Section SortFacts.
Import Py.
Context {A K : Type}.
Variable lt : K -> K -> result bool.
Variable key : A -> K.

Lemma insert_by_perm (x : A) (l l' : list A) :
  insert_by lt key x l = Ok l' -> Permutation (x :: l) l'.
Proof.
  revert l'. induction l as [|y t IH]; intros l' Hrun; cbn in Hrun.
  - inversion Hrun. apply Permutation_refl.
  - destruct (lt (key y) (key x)) as [[|]|e]; cbn [bind] in Hrun;
      [|inversion Hrun; apply Permutation_refl|discriminate].
    destruct (insert_by lt key x t) as [t'|e]; cbn [bind] in Hrun;
      [|discriminate].
    inversion Hrun; subst.
    apply perm_trans with (y :: x :: t); [apply perm_swap|].
    apply perm_skip. apply IH. reflexivity.
Qed.

Lemma sorted_by_perm (l l' : list A) :
  sorted_by lt key l = Ok l' -> Permutation l l'.
Proof.
  revert l'. induction l as [|x t IH]; intros l' Hrun; cbn in Hrun.
  - inversion Hrun. constructor.
  - destruct (sorted_by lt key t) as [t'|e]; cbn [bind] in Hrun;
      [|discriminate].
    apply perm_trans with (x :: t').
    + apply perm_skip. apply IH. reflexivity.
    + apply insert_by_perm. exact Hrun.
Qed.

(** Sorting two or more elements compares the first one with another. *)
Lemma sorted_by_compares (x : A) (t l' : list A) :
  t <> [] ->
  sorted_by lt key (x :: t) = Ok l' ->
  exists y b, In y t /\ lt (key y) (key x) = Ok b.
Proof.
  intros Hne Hrun. cbn in Hrun.
  destruct (sorted_by lt key t) as [t'|e] eqn:Ht; cbn [bind] in Hrun;
    [|discriminate].
  apply sorted_by_perm in Ht.
  destruct t' as [|y t''].
  - apply Permutation_sym, Permutation_nil in Ht. contradiction.
  - cbn in Hrun.
    destruct (lt (key y) (key x)) as [b|e] eqn:Hlt; [|discriminate].
    exists y, b. split; [|exact Hlt].
    apply Permutation_in with (y :: t''); [apply Permutation_sym; exact Ht|].
    left. reflexivity.
Qed.

(** If the sort of two or more elements returns, any two keys stand in
    every symmetric and transitive relation that compared keys stand in. *)
Lemma sorted_by_keys (R : K -> K -> Prop) (l l' : list A) :
  (forall a b r, lt a b = Ok r -> R a b) ->
  (forall a b, R a b -> R b a) ->
  (forall a b c, R a b -> R b c -> R a c) ->
  2 <= length l ->
  sorted_by lt key l = Ok l' ->
  forall x y, In x l -> In y l -> R (key x) (key y).
Proof.
  intros Hlt Hsym Htrans. revert l'.
  induction l as [|x t IH]; intros l' Hlen Hrun; [cbn in Hlen; lia|].
  destruct t as [|z t]; [cbn in Hlen; lia|].
  destruct (sorted_by_compares x (z :: t) l') as (y & b & Hin & Hyx);
    [discriminate|exact Hrun|].
  apply Hlt in Hyx.
  assert (Htail : forall a c, In a (z :: t) -> In c (z :: t) ->
                              R (key a) (key c)).
  { destruct t as [|w t].
    - intros a c [<-|[]] [<-|[]]. destruct Hin as [<-|[]]. eauto.
    - cbn in Hrun.
      destruct (sorted_by lt key t) as [t1|e] eqn:Ht; cbn [bind] in Hrun;
        [|discriminate].
      destruct (insert_by lt key w t1) as [t2|e] eqn:Hw; cbn [bind] in Hrun;
        [|discriminate].
      destruct (insert_by lt key z t2) as [t3|e] eqn:Hz; cbn [bind] in Hrun;
        [|discriminate].
      apply (IH t3); [cbn; lia|].
      cbn. rewrite Ht. cbn [bind]. rewrite Hw. cbn [bind]. exact Hz. }
  assert (Hx : forall a, In a (z :: t) -> R (key x) (key a)) by eauto.
  intros a c [<-|Ha] [<-|Hc]; eauto.
Qed.

End SortFacts.

(** ** Timelines and records without a timestamp *)

Section NarrativeTimeline.
Import Py Narrative.
Context {Evidence : Type} {H : Helpers Evidence}.

(** X27.  The narrative engine sorts on the raw timestamp; if the timeline of two
    or more events is returned at all, no event in it is undated. *)
Lemma narrative_timeline_all_dated (now : datetime) (all_sources : sources)
    (timeline : list event) :
  extract_comprehensive_timeline now all_sources = Ok timeline ->
  2 <= length timeline ->
  Forall (fun e => timestamp e <> None) timeline.
Proof.
  unfold extract_comprehensive_timeline. intros Hrun Hlen.
  destruct (match emails all_sources with Some _ => _ | None => _ end)
    as [from_emails|e]; cbn [bind] in Hrun; [|discriminate].
  set (l := from_emails ++ _) in Hrun.
  pose proof (sorted_by_perm _ _ _ _ Hrun) as Hperm.
  apply Forall_forall. intros x Hx.
  assert (Hxl : In x l)
    by (apply Permutation_in with timeline;
        [apply Permutation_sym; exact Hperm|exact Hx]).
  refine (proj1 (sorted_by_keys optional_datetime_lt timestamp
                   (fun a b => a <> None /\ b <> None) l timeline
                   _ _ _ _ Hrun x x Hxl Hxl)).
  - intros [a|] [b|] r Hr; try discriminate Hr. split; discriminate.
  - tauto.
  - tauto.
  - rewrite (Permutation_length Hperm). exact Hlen.
Qed.

(** C3 at a failing input: one undated and one dated document.  The sort
    of the narrative timeline asks whether a datetime is below [None] and
    the [TypeError] escapes; no timeline is built. *)
Theorem C3_undated_document_raises (now : datetime) :
  extract_comprehensive_timeline now Fixtures.undated_and_dated
  = Raise (TypeError "'<' not supported between instances").
Proof. reflexivity. Qed.

End NarrativeTimeline.

Section NaiveSort.
Import Py.
Context {A : Type}.
Variable key : A -> datetime.


Lemma insert_by_naive (x : A) (l : list A) :
  is_naive (key x) ->
  Forall (fun y => is_naive (key y)) l ->
  StronglySorted (micro_le key) l ->
  exists l',
    insert_by datetime_lt key x l = Ok l'
    /\ StronglySorted (micro_le key) l'
    /\ forall k, filter (micro_is key k) l' = filter (micro_is key k) (x :: l).
Proof.
  intros Hx Hl Hs. induction l as [|y t IH]; cbn [insert_by].
  - exists [x]. repeat split. constructor; constructor.
  - inversion Hl as [|? ? Hy Ht]; subst.
    inversion Hs as [|? ? Hst Hyt]; subst.
    destruct (key x) as [nx|] eqn:Hkx; [|destruct Hx].
    destruct (key y) as [ny|] eqn:Hky; [|destruct Hy].
    cbn [datetime_lt bind].
    destruct (N.ltb_spec ny nx) as [Hlt|Hge].
    + destruct (IH Ht Hst) as (t' & Hins & Hst' & Hfilter).
      rewrite Hins. cbn [bind].
      exists (y :: t'). split; [reflexivity|]. split.
      * constructor; [exact Hst'|].
        apply Forall_forall. intros z Hz.
        apply (Permutation_in z (Permutation_sym
                 (insert_by_perm datetime_lt key x t t' Hins))) in Hz.
        { destruct Hz as [<-|Hz].
          - unfold micro_le. rewrite Hkx, Hky. cbn. lia.
          - rewrite Forall_forall in Hyt. apply Hyt. exact Hz. }
      * intro k. cbn [filter]. rewrite Hfilter. cbn [filter].
        unfold micro_is. rewrite Hkx, Hky. cbn [micro_of].
        destruct (N.eqb_spec nx k), (N.eqb_spec ny k); try reflexivity. lia.
    + exists (x :: y :: t). split; [reflexivity|]. split; [|reflexivity].
      constructor; [exact Hs|].
      assert (Hxy : micro_le key x y)
        by (unfold micro_le; rewrite Hkx, Hky; cbn; lia).
      constructor; [exact Hxy|].
      rewrite Forall_forall in *. intros z Hz.
      specialize (Hyt z Hz). unfold micro_le in *. lia.
Qed.

(** On naive keys the sort returns, and what it returns is the input
    rearranged, in ascending key order, with the events of one key in their
    input order. *)
Lemma sorted_by_naive (l : list A) :
  Forall (fun y => is_naive (key y)) l ->
  exists l',
    sorted_by datetime_lt key l = Ok l'
    /\ Permutation l l'
    /\ StronglySorted (micro_le key) l'
    /\ forall k, filter (micro_is key k) l' = filter (micro_is key k) l.
Proof.
  induction l as [|x t IH]; intros Hl; cbn [sorted_by].
  - exists []. repeat split; constructor.
  - inversion Hl as [|? ? Hx Ht]; subst.
    destruct (IH Ht) as (t' & Hrun & Hperm & Hs & Hfilter).
    rewrite Hrun. cbn [bind].
    destruct (insert_by_naive x t' Hx) as (l' & Hins & Hs' & Hfilter');
      [|exact Hs|].
    + apply Forall_forall. intros z Hz. rewrite Forall_forall in Ht.
      apply Ht. apply Permutation_in with t';
        [apply Permutation_sym; exact Hperm|exact Hz].
    + exists l'. split; [exact Hins|]. split; [|split; [exact Hs'|]].
      * apply perm_trans with (x :: t'); [apply perm_skip; exact Hperm|].
        apply insert_by_perm with (lt := datetime_lt) (key := key).
        exact Hins.
      * intro k. rewrite Hfilter'. cbn [filter]. rewrite Hfilter.
        reflexivity.
Qed.

End NaiveSort.

Section ForensicTimeline.
Import Py Forensic.
Context {L : EmailLib}.

(** The forensic timeline puts [datetime.min] in place of a missing
    timestamp.  With naive timestamps only, the sort returns every event,
    in ascending order of the key, events of one key in input order. *)
Lemma forensic_timeline_naive (st : state) :
  Forall (fun x => match timestamp x with
                   | Some (Aware _) => False
                   | _ => True
                   end) (forensic_timeline st) ->
  exists timeline,
    sorted_timeline st = Ok timeline
    /\ Permutation (forensic_timeline st) timeline
    /\ StronglySorted (micro_le timeline_key) timeline
    /\ forall k,
         filter (micro_is timeline_key k) timeline
         = filter (micro_is timeline_key k) (forensic_timeline st).
Proof.
  intros Hnaive. unfold sorted_timeline.
  apply sorted_by_naive.
  eapply Forall_impl; [|exact Hnaive].
  intros x. unfold timeline_key.
  destruct (timestamp x) as [[n|z]|]; intros Hx; [exact I|exact Hx|exact I].
Qed.

(** In what the sort returns nothing but events at [datetime.min] comes
    before an undated event. *)
Lemma forensic_undated_first (st : state) (before after : list timeline_event)
    (x e : timeline_event) :
  Forall (fun x => match timestamp x with
                   | Some (Aware _) => False
                   | _ => True
                   end) (forensic_timeline st) ->
  sorted_timeline st = Ok (before ++ e :: after) ->
  timestamp e = None ->
  In x before ->
  micro_of (timeline_key x) = 0%N.
Proof.
  intros Hnaive Hrun He Hx.
  destruct (forensic_timeline_naive st Hnaive) as (tl & Hrun' & _ & Hs & _).
  rewrite Hrun in Hrun'. inversion Hrun'; subst tl. clear Hrun' Hrun.
  induction before as [|y before IH]; [destruct Hx|].
  cbn in Hs. inversion Hs as [|? ? Hs' Hy]; subst.
  destruct Hx as [<-|Hx].
  - rewrite Forall_forall in Hy.
    assert (He' : In e (before ++ e :: after))
      by (apply in_or_app; right; left; reflexivity).
    specialize (Hy e He').
    unfold micro_le, timeline_key in Hy. rewrite He in Hy.
    cbn [micro_of datetime_min] in Hy. unfold timeline_key. lia.
  - apply IH; assumption.
Qed.

(** X26.  An undated event next to one with an aware timestamp: the sort
    compares a naive [datetime.min] with an aware datetime and raises. *)
Lemma forensic_undated_with_aware_raises (st : state)
    (x y : timeline_event) (t : Z) :
  In x (forensic_timeline st) ->
  In y (forensic_timeline st) ->
  timestamp x = None ->
  timestamp y = Some (Aware t) ->
  exists e, sorted_timeline st = Raise e.
Proof.
  intros Hx Hy Htx Hty. unfold sorted_timeline.
  destruct (sorted_by datetime_lt timeline_key (forensic_timeline st))
    as [timeline|e] eqn:Hrun; [exfalso|eauto].
  assert (Hlen : 2 <= length (forensic_timeline st)).
  { destruct (forensic_timeline st) as [|a [|b l]]; cbn; try lia.
    - destruct Hx.
    - destruct Hx as [<-|[]]. destruct Hy as [<-|[]]. congruence. }
  pose proof (sorted_by_keys datetime_lt timeline_key same_kind
                (forensic_timeline st) timeline) as Hkeys.
  specialize (fun H1 H2 H3 => Hkeys H1 H2 H3 Hlen Hrun x y Hx Hy).
  unfold timeline_key in Hkeys. rewrite Htx, Hty in Hkeys.
  apply Hkeys.
  - intros [a|a] [b|b] r Hr; try discriminate Hr; exact I.
  - intros [a|a] [b|b]; auto.
  - intros [a|a] [b|b] [c|c]; cbn; auto.
Qed.

End ForensicTimeline.

(** ** One bad message does not stop the others *)

Section Containment.
Import Py Forensic.
Context {L : EmailLib} {Gaps Report : Type} {H : Helpers state Gaps Report}.

(** [process_single_eml] never raises: a message that fails anywhere in
    the [try] leaves the records and the timeline as they were and adds
    one line to the log; a message that succeeds adds one record and one
    event and logs nothing. *)
Lemma process_single_eml_contained (now : string) (seed : Entropy)
    (st : state) (eml_path : string) :
  match try_single_eml now seed eml_path with
  | Ok (m, attachments, b) =>
      extracted_metadata (process_single_eml now seed st eml_path)
      = extracted_metadata st ++ [(m, attachments, b)]
      /\ length (forensic_timeline (process_single_eml now seed st eml_path))
         = S (length (forensic_timeline st))
      /\ error_log (process_single_eml now seed st eml_path) = error_log st
  | Raise e =>
      extracted_metadata (process_single_eml now seed st eml_path)
      = extracted_metadata st
      /\ forensic_timeline (process_single_eml now seed st eml_path)
         = forensic_timeline st
      /\ error_log (process_single_eml now seed st eml_path)
         = error_log st ++ [(eml_path, e)]
  end.
Proof.
  unfold process_single_eml.
  destruct (try_single_eml now seed eml_path) as [[[m attachments] b]|e];
    cbn [extracted_metadata forensic_timeline error_log].
  - repeat split. rewrite length_app. cbn. lia.
  - repeat split.
Qed.


End Containment.

Section AsShipped.
Import Py Forensic.
Context {L : EmailLib}.

(** With the helpers the class lacks, the behavioural analysis of every
    message raises, so the [try] of [process_single_eml] never succeeds. *)
Lemma try_single_eml_as_shipped (now : string) (seed : Entropy)
    (eml_path : string) :
  exists e, try_single_eml (H := as_shipped) now seed eml_path = Raise e.
Proof.
  unfold try_single_eml.
  destruct (read_file eml_path) as [raw|e]; cbn [bind]; [|eauto].
  destruct (message_from_bytes raw) as [msg|e]; cbn [bind]; [|eauto].
  destruct (extract_complete_email_metadata now seed msg) as [[m left]|e];
    cbn [bind fst snd]; [|eauto].
  destruct (extract_attachment_metadata left) as [a|e]; cbn [bind]; [|eauto].
  unfold analyze_email_behavior.
  destruct (get_email_content left) as [content|e]; cbn; eauto.
Qed.

Lemma process_single_eml_as_shipped (now : string) (seed : Entropy)
    (st : state) (eml_path : string) :
  extracted_metadata
    (process_single_eml (H := as_shipped) now seed st eml_path)
  = extracted_metadata st
  /\ forensic_timeline
       (process_single_eml (H := as_shipped) now seed st eml_path)
     = forensic_timeline st
  /\ length (error_log
               (process_single_eml (H := as_shipped) now seed st eml_path))
     = S (length (error_log st)).
Proof.
  pose proof (process_single_eml_contained (H := as_shipped) now seed st
                eml_path) as Hp.
  destruct (try_single_eml_as_shipped now seed eml_path) as [e He].
  rewrite He in Hp. destruct Hp as (Hm & Ht & Hl).
  rewrite Hm, Ht, Hl, length_app. cbn. repeat split. lia.
Qed.

Lemma generate_forensic_analysis_as_shipped (st : state) :
  exists e, generate_forensic_analysis (H := as_shipped) st = Raise e.
Proof.
  unfold generate_forensic_analysis, create_forensic_timeline.
  destruct (sorted_timeline st) as [timeline|e]; cbn; eauto.
Qed.

(** C2 at a failing input: a directory of message files.  The dispatch of
    [execute_complete_forensic_extraction] calls
    [self.process_email_directory], which the class does not define, and
    the [AttributeError] ends the run before any file is read.  Whatever
    the source, the run ends in an exception: for a single [.eml] file the
    message is logged as failed and never extracted, and the analysis that
    follows raises as well. *)
Theorem C2_batch_aborts (now : string) (seed : Entropy) (st : state)
    (path : string) :
  execute_complete_forensic_extraction (H := as_shipped) IsDir now seed st
    path
  = Raise (AttributeError "process_email_directory")
  /\ (forall kind,
        exists e,
          execute_complete_forensic_extraction (H := as_shipped)
            kind now seed st path = Raise e)
  /\ extracted_metadata
       (process_single_eml (H := as_shipped) now seed st path)
     = extracted_metadata st.
Proof.
  split; [reflexivity|]. split.
  - intro kind. unfold execute_complete_forensic_extraction.
    assert (Hraise : forall st',
               exists e,
                 (forensic_analysis <-
                    generate_forensic_analysis (H := as_shipped) st' ;;
                  Ok (st', forensic_analysis)) = Raise e).
    { intro st'.
      destruct (generate_forensic_analysis_as_shipped st') as [e He].
      rewrite He. cbn [bind]. eauto. }
    destruct kind; cbn [bind].
    + destruct (endswith path ".eml"); cbn [bind]; [apply Hraise|].
      destruct (endswith path ".mbox"); [cbn; eauto|].
      destruct (endswith path ".zip"); [cbn; eauto|].
      cbn [bind]. apply Hraise.
    + cbn. eauto.
    + apply Hraise.
  - apply process_single_eml_as_shipped.
Qed.

End AsShipped.

(** ** Power scores *)

Section PowerScores.
Import Py Narrative.
Context {N : Networkx}.

(** The overall score of a node is the mean of what the three centrality
    dicts hold for it, and it is 0 when all three hold 0 or nothing. *)
Lemma overall_power_score_mean (b c e : list (string * Q)) (node : string) :
  (overall_power_score (power_of b c e node)
   == (betweenness (power_of b c e node) + closeness (power_of b c e node)
       + eigenvector (power_of b c e node)) / 3)%Q.
Proof. reflexivity. Qed.

Lemma overall_power_score_zero (b c e : list (string * Q)) (node : string) :
  (get_default (dict_get b node) 0 == 0)%Q ->
  (get_default (dict_get c node) 0 == 0)%Q ->
  (get_default (dict_get e node) 0 == 0)%Q ->
  (overall_power_score (power_of b c e node) == 0)%Q.
Proof.
  intros Hb Hc He. cbn [power_of overall_power_score].
  rewrite Hb, Hc, He. reflexivity.
Qed.

End PowerScores.

(** * Further properties of the sources *)

(** ** Lower-casing and substrings *)

Module PyStrMore.
Import PyStr.

Lemma lower_char_idempotent (c : ascii) :
  lower_char (lower_char c) = lower_char c.
Proof.
  destruct c as [[] [] [] [] [] [] [] []]; vm_compute; reflexivity.
Qed.

Lemma lower_idempotent (s : string) : lower (lower s) = lower s.
Proof.
  induction s as [|c t IH]; [reflexivity|].
  cbn [lower]. rewrite lower_char_idempotent, IH. reflexivity.
Qed.

Lemma lower_app (a b : string) :
  lower (a ++ b) = (lower a ++ lower b)%string.
Proof.
  induction a as [|c t IH]; [reflexivity|].
  cbn [lower String.append]. rewrite IH. reflexivity.
Qed.

Lemma prefix_iff (k h : string) :
  prefix k h = true <-> exists post, h = (k ++ post)%string.
Proof.
  revert h. induction k as [|a k IH]; intros h.
  - split; [intros _; exists h; reflexivity|].
    intros _. destruct h; reflexivity.
  - destruct h as [|b h]; simpl.
    + split; [discriminate|intros [post Hp]; discriminate Hp].
    + destruct (ascii_dec a b) as [<-|Hab].
      * rewrite IH. split; intros [post Hp]; exists post.
        -- rewrite Hp. reflexivity.
        -- inversion Hp. reflexivity.
      * split; [discriminate|].
        intros [post Hp]. inversion Hp as [[Hab' Hrest]].
        destruct (Hab (eq_sym Hab')).
Qed.

Lemma append_assoc (a b c : string) :
  ((a ++ b) ++ c = a ++ (b ++ c))%string.
Proof.
  induction a as [|x a IH]; [reflexivity|]. cbn. rewrite IH. reflexivity.
Qed.

(** [needle in hay] holds exactly when [hay] is some text, the needle,
    some text. *)
Lemma contains_iff (k h : string) :
  contains k h = true <-> exists pre post, h = (pre ++ k ++ post)%string.
Proof.
  induction h as [|c h IH]; cbn [contains].
  - rewrite orb_false_r, prefix_iff. split.
    + intros [post Hp]. exists "", post. exact Hp.
    + intros [[|x pre] [post Hp]]; [exists post; exact Hp|discriminate Hp].
  - rewrite orb_true_iff, prefix_iff, IH. split.
    + intros [[post Hp]|[pre [post Hp]]].
      * exists "", post. exact Hp.
      * exists (String c pre), post. cbn. rewrite Hp. reflexivity.
    + intros [[|x pre] [post Hp]].
      * left. exists post. exact Hp.
      * right. cbn in Hp. inversion Hp. exists pre, post. reflexivity.
Qed.

Lemma contains_trans (a b c : string) :
  contains a b = true -> contains b c = true -> contains a c = true.
Proof.
  rewrite !contains_iff. intros (p1 & q1 & ->) (p2 & q2 & ->).
  exists (p2 ++ p1)%string, (q1 ++ q2)%string.
  rewrite !append_assoc. reflexivity.
Qed.

Lemma contains_app_l (k a b : string) :
  contains k a = true -> contains k (a ++ b) = true.
Proof.
  rewrite !contains_iff. intros (p & q & ->).
  exists p, (q ++ b)%string. rewrite !append_assoc. reflexivity.
Qed.

Lemma contains_app_r (k a b : string) :
  contains k b = true -> contains k (a ++ b) = true.
Proof.
  rewrite !contains_iff. intros (p & q & ->).
  exists (a ++ p)%string, q. rewrite !append_assoc. reflexivity.
Qed.

Lemma keyword_hits_app_l (keywords : list string) (a b : string) :
  keyword_hits keywords a <= keyword_hits keywords (a ++ b).
Proof.
  induction keywords as [|k ks IH]; [apply Nat.le_refl|].
  rewrite !PyStrFacts.keyword_hits_cons.
  destruct (contains k a) eqn:Hk.
  - rewrite (contains_app_l k a b Hk). lia.
  - destruct (contains k (a ++ b)); lia.
Qed.

Lemma keyword_hits_app_r (keywords : list string) (a b : string) :
  keyword_hits keywords b <= keyword_hits keywords (a ++ b).
Proof.
  induction keywords as [|k ks IH]; [apply Nat.le_refl|].
  rewrite !PyStrFacts.keyword_hits_cons.
  destruct (contains k b) eqn:Hk.
  - rewrite (contains_app_r k a b Hk). lia.
  - destruct (contains k (a ++ b)); lia.
Qed.

End PyStrMore.

(** ** Keyword analyses: case, added text, decision table *)

Section KeywordAnalyses.
Import PyStr PyStrMore.

(** X1.  The four keyword analyses read the text through [lower()] only:
    lower-casing the input beforehand changes none of their results. *)
Theorem keyword_analyses_ignore_case (text : string) :
  Forensic.analyze_language_tone (lower text)
  = Forensic.analyze_language_tone text
  /\ Narrative.detect_emotions (lower text) = Narrative.detect_emotions text
  /\ Machiavellian.score_machiavellian_traits (lower text)
     = Machiavellian.score_machiavellian_traits text
  /\ Machiavellian.build_risk_profile (lower text)
     = Machiavellian.build_risk_profile text.
Proof.
  unfold Forensic.analyze_language_tone, Narrative.detect_emotions,
    Machiavellian.build_risk_profile,
    Machiavellian.score_machiavellian_traits.
  rewrite !lower_idempotent. repeat split.
Qed.

(** X2.  The tone as a decision table on the three counts: aggressive needs
    a strict lead over both others, passive a strict lead over
    professional and no aggressive lead, professional at least one hit and
    no lead by another, and neutral is the tone exactly of a text in which
    no keyword of any group occurs. *)
Theorem tone_decision_table (content : string) :
  let a := Forensic.aggressive_score content in
  let p := Forensic.passive_score content in
  let r := Forensic.professional_score content in
  (Forensic.analyze_language_tone content = Forensic.aggressive
   <-> p < a /\ r < a)
  /\ (Forensic.analyze_language_tone content = Forensic.passive
      <-> a <= p /\ r < p)
  /\ (Forensic.analyze_language_tone content = Forensic.professional
      <-> a <= r /\ p <= r /\ 0 < r)
  /\ (Forensic.analyze_language_tone content = Forensic.neutral
      <-> a = 0 /\ p = 0 /\ r = 0).
Proof.
  unfold Forensic.analyze_language_tone, Forensic.aggressive_score,
    Forensic.passive_score, Forensic.professional_score.
  set (a := keyword_hits Forensic.aggressive_indicators _).
  set (p := keyword_hits Forensic.passive_indicators _).
  set (r := keyword_hits Forensic.professional_indicators _).
  cbv zeta.
  destruct (Nat.ltb_spec (Nat.max p r) a);
    [|destruct (Nat.ltb_spec r p); [|destruct (Nat.ltb_spec 0 r)]];
    repeat split; intros; try discriminate; try lia.
Qed.

(** X3.  Text added before or after never lowers the count of a keyword
    group, so none of the three tone counts goes down. *)
Theorem added_text_keeps_hits (keywords : list string) (a b : string) :
  keyword_hits keywords (lower a) <= keyword_hits keywords (lower (a ++ b))
  /\ keyword_hits keywords (lower b) <= keyword_hits keywords (lower (a ++ b))
  /\ Forensic.aggressive_score a <= Forensic.aggressive_score (a ++ b)
  /\ Forensic.passive_score a <= Forensic.passive_score (a ++ b)
  /\ Forensic.professional_score a <= Forensic.professional_score (a ++ b).
Proof.
  unfold Forensic.aggressive_score, Forensic.passive_score,
    Forensic.professional_score.
  rewrite !lower_app.
  repeat split; first [apply keyword_hits_app_l|apply keyword_hits_app_r].
Qed.

End KeywordAnalyses.

(** ** Detected emotions *)

Section Emotions.
Import Py PyStr.

Lemma dict_get_scored (catalogue : list (string * list string))
    (text emotion : string) :
  dict_get
    (flat_map (fun entry =>
                 let score := keyword_hits (snd entry) text in
                 if 0 <? score then [(fst entry, score)] else [])
              catalogue) emotion
  = match
      find (fun entry => String.eqb (fst entry) emotion
                         && (0 <? keyword_hits (snd entry) text)) catalogue
    with
    | Some entry => Some (keyword_hits (snd entry) text)
    | None => None
    end.
Proof.
  induction catalogue as [|[e kws] rest IH]; [reflexivity|].
  cbn [flat_map find fst snd]. cbv zeta.
  destruct (0 <? keyword_hits kws text) eqn:Hpos; cbn [app dict_get].
  - destruct (String.eqb e emotion); cbn [andb]; [reflexivity|exact IH].
  - rewrite andb_false_r. exact IH.
Qed.

(** X4.  Looking an emotion up in what [detect_emotions] returns gives the
    count of its keyword group when that count is positive and nothing
    otherwise; an emotion outside the catalogue is never reported. *)
Theorem detect_emotions_lookup (text emotion : string) :
  dict_get (Narrative.detect_emotions text) emotion
  = let score := keyword_hits (Narrative.emotion_group emotion) (lower text) in
    if 0 <? score then Some score else None.
Proof.
  unfold Narrative.detect_emotions. rewrite dict_get_scored.
  unfold Narrative.emotion_group, Narrative.emotion_keywords.
  cbn [find dict_get fst snd].
  repeat match goal with
         | |- context [String.eqb ?k emotion] =>
             destruct (String.eqb k emotion) eqn:?
         end;
  cbn [andb get_default]; cbv zeta;
  repeat match goal with
         | |- context [0 <? ?s] => destruct (0 <? s) eqn:?
         end;
  try reflexivity; try congruence;
  repeat match goal with
         | H : String.eqb _ emotion = true |- _ =>
             apply String.eqb_eq in H; subst emotion
         end;
  try discriminate.
Qed.

End Emotions.

(** ** Risk profile *)

Section RiskProfile.
Import PyStr PyStrMore Machiavellian.

Lemma existsb_contains_app (keywords : list string) (a b : string) :
  existsb (fun x => contains x (lower a)) keywords = true ->
  existsb (fun x => contains x (lower (a ++ b))) keywords = true.
Proof.
  rewrite !existsb_exists. intros [k [Hin Hk]]. exists k.
  split; [exact Hin|]. rewrite lower_app. apply contains_app_l. exact Hk.
Qed.

(** The score and the flags as functions of the five tests. *)
Lemma risk_profile_formula (text : string) :
  let u := contains "unforeseen circumstance" (lower text) in
  let d := contains "as per our agreement" (lower text) in
  let r := contains "regrettably" (lower text) in
  let e := existsb (fun x => contains x (lower text))
                   ["confidential"; "subjective"; "understanding"] in
  let w := contains "withhold" (lower text) in
  risk_score (build_risk_profile text)
  = (if u && d && r && e then 1 else 0) + (if e then 1 else 0)
    + (if w then 1 else 0)
  /\ flags (build_risk_profile text)
     = (if u && d && r && e then ["High Machiavellian traits"] else [])
       ++ (if e then ["Potential deception"] else [])
       ++ (if w then ["Intent to obscure information"] else []).
Proof.
  unfold build_risk_profile, score_machiavellian_traits.
  destruct (contains "unforeseen circumstance" (lower text));
  destruct (contains "as per our agreement" (lower text));
  destruct (contains "regrettably" (lower text));
  destruct (existsb _ _);
  destruct (contains "withhold" (lower text));
  vm_compute; split; reflexivity.
Qed.

(** X5.  The risk score is the number of flags and at most 3; the flags
    come in the fixed order high traits, deception, withholding; and
    "High Machiavellian traits" is never raised without "Potential
    deception", so a profile with the first flag scores at least 2. *)
Theorem risk_profile_shape (text : string) :
  let p := build_risk_profile text in
  risk_score p = length (flags p)
  /\ risk_score p <= 3
  /\ (exists h d w : bool,
        flags p
        = (if h then ["High Machiavellian traits"] else [])
          ++ (if d then ["Potential deception"] else [])
          ++ (if w then ["Intent to obscure information"] else []))
  /\ (In "High Machiavellian traits" (flags p) ->
      In "Potential deception" (flags p) /\ 2 <= risk_score p).
Proof.
  cbv zeta. destruct (risk_profile_formula text) as [Hs Hf].
  cbv zeta in Hs, Hf. rewrite Hs, Hf.
  destruct (contains "unforeseen circumstance" (lower text));
  destruct (contains "as per our agreement" (lower text));
  destruct (contains "regrettably" (lower text));
  destruct (existsb _ _);
  destruct (contains "withhold" (lower text));
  cbn [andb app length Nat.add];
  (split; [reflexivity|]); (split; [lia|]);
  (split; [|cbn [In]; intros Hin; split;
            [intuition discriminate|intuition (try discriminate; try lia)]]);
  first [ exists true, true, true; reflexivity
        | exists true, true, false; reflexivity
        | exists false, true, true; reflexivity
        | exists false, true, false; reflexivity
        | exists false, false, true; reflexivity
        | exists false, false, false; reflexivity ].
Qed.

(** X6.  Text added after a document never lowers its risk score. *)
Theorem added_text_keeps_risk (a b : string) :
  risk_score (build_risk_profile a)
  <= risk_score (build_risk_profile (a ++ b)).
Proof.
  destruct (risk_profile_formula a) as [Ha _].
  destruct (risk_profile_formula (a ++ b)) as [Hab _].
  cbv zeta in Ha, Hab. rewrite Ha, Hab. clear Ha Hab.
  pose proof (fun k => contains_app_l k (lower a) (lower b)) as Hmono.
  pose proof (existsb_contains_app
                ["confidential"; "subjective"; "understanding"] a b) as He.
  rewrite lower_app in *.
  pose proof (Hmono "unforeseen circumstance") as Hu.
  pose proof (Hmono "as per our agreement") as Hd.
  pose proof (Hmono "regrettably") as Hr.
  pose proof (Hmono "withhold") as Hw.
  destruct (contains "unforeseen circumstance" (lower a));
  destruct (contains "as per our agreement" (lower a));
  destruct (contains "regrettably" (lower a));
  destruct (existsb _ ["confidential"; "subjective"; "understanding"]);
  destruct (contains "withhold" (lower a));
  try rewrite (Hu eq_refl); try rewrite (Hd eq_refl);
  try rewrite (Hr eq_refl); try rewrite (He eq_refl);
  try rewrite (Hw eq_refl);
  cbn [andb];
  repeat match goal with
         | |- context [if ?c then _ else _] => destruct c
         end; cbn; lia.
Qed.

End RiskProfile.

(** ** Confidence and the verification report *)

Section VerificationReport.
Import Py PyStr Master MasterTerms.
Context {P : Patterns}.

Lemma ratio_percent (v t : nat) :
  0 < t -> v <= t ->
  (0 <= inject_Z (Z.of_nat v) / inject_Z (Z.of_nat t) * 100)%Q
  /\ (inject_Z (Z.of_nat v) / inject_Z (Z.of_nat t) * 100 <= 100)%Q.
Proof.
  intros Ht Hv.
  assert (Htq : (0 < inject_Z (Z.of_nat t))%Q)
    by (rewrite <- (Zlt_Qlt 0); lia).
  assert (Hvq : (0 <= inject_Z (Z.of_nat v))%Q)
    by (rewrite <- (Zle_Qle 0); lia).
  assert (Hvt : (inject_Z (Z.of_nat v) <= inject_Z (Z.of_nat t))%Q)
    by (rewrite <- Zle_Qle; lia).
  split.
  - apply Qmult_le_0_compat; [|discriminate].
    apply Qle_shift_div_l; [exact Htq|]. rewrite Qmult_0_l. exact Hvq.
  - setoid_replace 100%Q with (1 * 100)%Q at 2 by reflexivity.
    apply Qmult_le_compat_r; [|discriminate].
    apply Qle_shift_div_r; [exact Htq|]. rewrite Qmult_1_l. exact Hvt.
Qed.

Lemma all_verified (text : string) :
  filter verified (verifications (auto_verify_legal_content text))
  = verifications (auto_verify_legal_content text).
Proof.
  cbn [auto_verify_legal_content verifications].
  rewrite filter_app. f_equal.
  - induction (extract_case_citations text) as [|c l IH]; [reflexivity|].
    cbn. rewrite IH. reflexivity.
  - induction (extract_statute_references text) as [|c l IH]; [reflexivity|].
    cbn. rewrite IH. reflexivity.
Qed.

Lemma confidence_value (text : string) :
  (confidence_score (auto_verify_legal_content text)
   == if has_reference text then 100 else 0)%Q.
Proof.
  assert (Hshape :
            verifications (auto_verify_legal_content text)
            = map verify_case_citation (extract_case_citations text)
              ++ map verify_statute (extract_statute_references text))
    by reflexivity.
  cbn [auto_verify_legal_content confidence_score].
  unfold calculate_confidence_score. rewrite <- Hshape, all_verified.
  unfold has_reference. rewrite Hshape.
  destruct (extract_case_citations text) as [|c cs];
    [destruct (extract_statute_references text) as [|r rs]|];
    cbn [map app]; try reflexivity.
  - cbn [length]. field. intros Hz. unfold Qeq in Hz.
    cbn [Qnum Qden inject_Z] in Hz. lia.
  - cbn [length]. field. intros Hz. unfold Qeq in Hz.
    cbn [Qnum Qden inject_Z] in Hz. lia.
Qed.

Lemma confidence_threshold (text : string) :
  Qle_bool 80 (confidence_score (auto_verify_legal_content text))
  = has_reference text.
Proof.
  pose proof (confidence_value text) as Hconf.
  destruct (has_reference text).
  - apply Qle_bool_iff. rewrite Hconf. discriminate.
  - destruct (Qle_bool 80 _) eqn:Hle; [|reflexivity].
    apply Qle_bool_iff in Hle. rewrite Hconf in Hle.
    exfalso. revert Hle. unfold Qle. cbn. lia.
Qed.

(** X7.  The confidence of a text is all or nothing: 0 when no citation
    and no statute reference is found in it, 100 as soon as one is found,
    whatever it is; every reference found is marked verified. *)
Theorem confidence_all_or_nothing (text : string) :
  (confidence_score (auto_verify_legal_content text)
   == if has_reference text then 100 else 0)%Q
  /\ Qle_bool 80 (confidence_score (auto_verify_legal_content text))
     = has_reference text
  /\ Forall (fun v => verified v = true)
            (verifications (auto_verify_legal_content text)).
Proof.
  split; [apply confidence_value|].
  split; [apply confidence_threshold|].
  rewrite <- all_verified. apply Forall_forall. intros v Hv.
  apply filter_In in Hv. tauto.
Qed.

End VerificationReport.

Section ReportShape.
Import Py PyStr Master MasterTerms.
Context {P : Patterns}.

Lemma verify_each_counts (contents : list string) (i : nat) :
  length (verify_each i contents) = length (filter substantial contents)
  /\ length (filter (fun v => Qle_bool 80 (confidence_score (snd v)))
                    (verify_each i contents))
     = length (filter (fun c => substantial c && has_reference c) contents).
Proof.
  revert i. induction contents as [|c t IH]; intros i; [split; reflexivity|].
  cbn [verify_each filter]. destruct (IH (S i)) as [IHt IHv].
  destruct (substantial c); cbn [andb app length filter snd].
  - rewrite (confidence_threshold c). destruct (has_reference c); cbn [length]; lia.
  - split; assumption.
Qed.

Lemma filter_both_length {A : Type} (f g : A -> bool) (l : list A) :
  length (filter (fun x => f x && g x) l) <= length (filter f l)
  /\ (length (filter (fun x => f x && g x) l) = length (filter f l)
      <-> forall x, In x l -> f x = true -> g x = true).
Proof.
  induction l as [|x t [IHle IHiff]]; cbn [filter].
  - split; [apply Nat.le_refl|]. split; [intros _ x []|reflexivity].
  - destruct (f x) eqn:Hf, (g x) eqn:Hg; cbn [andb length].
    + split; [lia|]. split.
      * intros Heq y [<-|Hy] Hfy; [exact Hg|].
        apply IHiff; [lia|exact Hy|exact Hfy].
      * intros Hall. f_equal. apply IHiff.
        intros y Hy. apply Hall. right. exact Hy.
    + split; [lia|]. split; [lia|].
      intros Hall. specialize (Hall x (or_introl eq_refl) Hf). congruence.
    + split; [exact IHle|]. split.
      * intros Heq y [<-|Hy] Hfy; [congruence|]. apply IHiff; assumption.
      * intros Hall. apply IHiff. intros y Hy. apply Hall. right. exact Hy.
    + split; [exact IHle|]. split.
      * intros Heq y [<-|Hy] Hfy; [congruence|]. apply IHiff; assumption.
      * intros Hall. apply IHiff. intros y Hy. apply Hall. right. exact Hy.
Qed.

(** X8.  The report counts the substantial pieces, and among them those in
    which a reference is found; the verified count never exceeds the
    total, the rate lies in [0, 100], and the report says
    [government_verified] exactly when a reference is found in every
    substantial piece. *)
Theorem verification_report_counts (intelligence_data : intelligence) :
  let report := verify_all_legal_information intelligence_data in
  let contents := all_text_content intelligence_data in
  total_content_pieces report = length (filter substantial contents)
  /\ verified_pieces report
     = length (filter (fun c => substantial c && has_reference c) contents)
  /\ verified_pieces report <= total_content_pieces report
  /\ (0 <= verification_rate report)%Q
  /\ (verification_rate report <= 100)%Q
  /\ (government_verified report = true
      <-> forall c, In c contents -> substantial c = true ->
                    has_reference c = true).
Proof.
  cbv zeta. unfold verify_all_legal_information.
  cbn [total_content_pieces verified_pieces verification_rate
       government_verified].
  destruct (verify_each_counts (all_text_content intelligence_data) 0)
    as [Ht Hv].
  rewrite Ht, Hv.
  destruct (filter_both_length substantial has_reference
              (all_text_content intelligence_data)) as [Hle Hiff].
  split; [reflexivity|]. split; [reflexivity|]. split; [exact Hle|].
  set (v := length (filter (fun c => substantial c && has_reference c) _))
    in *.
  set (t := length (filter substantial _)) in *.
  split; [|split].
  - destruct (Nat.ltb_spec 0 t) as [Hpos|Hz]; [|discriminate].
    apply ratio_percent; assumption.
  - destruct (Nat.ltb_spec 0 t) as [Hpos|Hz]; [|apply Qle_refl].
    apply ratio_percent; assumption.
  - rewrite Nat.eqb_eq. exact Hiff.
Qed.

Lemma verify_each_keys (contents : list string) (i : nat) :
  Forall (fun kv =>
            i <= fst kv
            /\ nth_error contents (fst kv - i) = Some (text_analyzed (snd kv))
            /\ substantial (text_analyzed (snd kv)) = true)
         (verify_each i contents)
  /\ StronglySorted lt (map fst (verify_each i contents)).
Proof.
  revert i. induction contents as [|c t IH]; intros i; cbn [verify_each].
  - split; constructor.
  - destruct (IH (S i)) as [IHall IHs].
    assert (Hshift :
              Forall (fun kv =>
                        i <= fst kv
                        /\ nth_error (c :: t) (fst kv - i)
                           = Some (text_analyzed (snd kv))
                        /\ substantial (text_analyzed (snd kv)) = true)
                     (verify_each (S i) t)).
    { eapply Forall_impl; [|exact IHall].
      intros [k v] (Hk & Hn & Hs). cbn [fst snd] in *.
      split; [lia|]. split; [|exact Hs].
      replace (k - i) with (S (k - S i)) by lia. exact Hn. }
    destruct (substantial c) eqn:Hc; cbn [app map fst].
    + split.
      * constructor; [|exact Hshift]. cbn [fst snd].
        rewrite Nat.sub_diag. auto.
      * constructor; [exact IHs|].
        apply Forall_map. eapply Forall_impl; [|exact IHall].
        intros [k v] (Hk & _). cbn [fst] in *. lia.
    + split; assumption.
Qed.

(** X9.  Each entry of [detailed_results] is filed under the position of its
    text in the list of content pieces, skipped pieces included; the text
    is substantial, and the keys are strictly increasing, so no two entries
    share a key. *)
Theorem detailed_results_keys (intelligence_data : intelligence) :
  let report := verify_all_legal_information intelligence_data in
  Forall (fun kv =>
            nth_error (all_text_content intelligence_data) (fst kv)
            = Some (text_analyzed (snd kv))
            /\ substantial (text_analyzed (snd kv)) = true)
         (detailed_results report)
  /\ StronglySorted lt (map fst (detailed_results report))
  /\ NoDup (map fst (detailed_results report)).
Proof.
  cbv zeta. unfold verify_all_legal_information. cbn [detailed_results].
  destruct (verify_each_keys (all_text_content intelligence_data) 0)
    as [Hall Hs].
  split; [|split; [exact Hs|]].
  - eapply Forall_impl; [|exact Hall].
    intros [k v] (_ & Hn & Hsub). cbn [fst snd] in *.
    rewrite Nat.sub_0_r in Hn. auto.
  - clear Hall. induction Hs as [|k ks Hs IH Hk]; constructor; [|exact IH].
    intro Hin. rewrite Forall_forall in Hk. specialize (Hk k Hin). lia.
Qed.

End ReportShape.

(** ** Strategy probabilities stay below 1.0 *)

Section ProbabilityRange.
Import Py Narrative.
Context {NP : Numpy}.

(** X10.  For every strategy and every relationship data the success
    probability is the float sum of the base rate and the adjustment,
    untouched by [min(1.0, ...)]: it lies between 0.5 and 0.95, below 1.0.
    The adjustment is 0.1 exactly when there is relationship data whose
    mean score is above 0.7, and a strategy outside the catalogue is rated
    from base 0.5. *)
Theorem success_probability_range {Data : Type} (strategy : string)
    (narrative_data : Data)
    (relationship_data : list (string * option float)) :
  let p :=
    calculate_success_probability strategy narrative_data
      relationship_data in
  p = (base_probability strategy + adjustments relationship_data)%float
  /\ PrimFloat.leb 0.5 p = true
  /\ PrimFloat.leb p 0.95 = true
  /\ PrimFloat.ltb p 1 = true
  /\ (adjustments relationship_data
      = if match relationship_data with [] => false | _ => true end
           && PrimFloat.ltb 0.7 (np_mean (power_scores relationship_data))
        then 0.1%float else 0%float)
  /\ (~ In strategy strategies -> base_probability strategy = 0.5%float).
Proof.
  cbv zeta.
  split; [each_probability strategy relationship_data; reflexivity|].
  split; [each_probability strategy relationship_data; reflexivity|].
  split; [each_probability strategy relationship_data; reflexivity|].
  split; [each_probability strategy relationship_data; reflexivity|].
  split.
  - unfold adjustments. destruct relationship_data as [|r rs];
      [reflexivity|]. cbv zeta. cbn [andb].
    destruct (PrimFloat.ltb 0.7 (np_mean (power_scores (r :: rs))));
      reflexivity.
  - intro Hout. unfold base_probability, base_probabilities.
    cbn [Py.dict_get].
    repeat match goal with
           | |- context [String.eqb ?a strategy] =>
               destruct (String.eqb_spec a strategy) as [Heq|_];
               [exfalso; apply Hout; rewrite <- Heq; cbn; tauto|]
           end.
    reflexivity.
Qed.

End ProbabilityRange.

(** Rounding decides the adjustment.  The scores 0.1, 1.0 and 1.0 have the
    float mean 0.7000000000000001, above the threshold that their exact
    mean only meets, so the adjustment is made; and the float sum of 0.7
    and 0.1 is 0.7999999999999999. *)
Lemma rounding_decides_the_adjustment :
  @Narrative.np_mean Samples.running_mean
    (Narrative.power_scores Samples.one_weak_two_strong)
  = 0.7000000000000001%float
  /\ @Narrative.calculate_success_probability Samples.running_mean unit
       "public_pressure" tt Samples.one_weak_two_strong = 0.6%float
  /\ @Narrative.calculate_success_probability Samples.running_mean unit
       "regulatory_escalation" tt Samples.one_weak_two_strong
     = 0.7999999999999999%float.
Proof. repeat split. Qed.

(** ** The Date header of a message *)

Section DateHeader.
Import Py Forensic.
Context {L : EmailLib} {Gaps Report : Type} {H : Helpers state Gaps Report}.

(** X11.  A file whose Date header is present, non-empty and unparseable
    yields no record: records and timeline stay as they were and one
    exception is logged for the file.  It is the exception of the date
    parser, unless reading the Message-ID, which comes first, has raised
    already. *)
Theorem unparseable_date_is_logged (now : string) (seed : Entropy)
    (st : state) (eml_path : string) (raw : list ascii) (msg : Message)
    (d : string) (e : exn) :
  read_file eml_path = Ok raw ->
  message_from_bytes raw = Ok msg ->
  msg_get msg "Date" = Ok (Some d) ->
  d <> "" ->
  parsedate_to_datetime d = Raise e ->
  process_single_eml now seed st eml_path
  = {| extracted_metadata := extracted_metadata st;
       forensic_timeline := forensic_timeline st;
       error_log :=
         error_log st
         ++ [(eml_path,
              match msg_get msg "Message-ID" with
              | Ok _ => e
              | Raise first => first
              end)] |}.
Proof.
  intros Hread Hparse Hdate Hne Hbad.
  unfold process_single_eml, try_single_eml.
  rewrite Hread. cbn [bind]. rewrite Hparse. cbn [bind].
  unfold extract_complete_email_metadata, header.
  destruct (msg_get msg "Message-ID") as [mid|first]; cbn [bind];
    [|reflexivity].
  rewrite Hdate. cbn [bind get_default].
  destruct d as [|c d]; [contradiction|]. cbn [PyStr.truthy bind].
  rewrite Hbad. reflexivity.
Qed.

(** X12.  For a message without a Date header, or with an empty one, the
    date parser has no part in the extraction: with any other parser the
    outcome is the same, and a record that is returned has
    [date_parsed = None], an empty [date_rfc2822], the time of the call
    and the digest of the serialised message. *)
Theorem missing_date_is_none (parser : string -> result datetime)
    (now : string) (seed : Entropy) (msg : Message) :
  msg_get msg "Date" = Ok None \/ msg_get msg "Date" = Ok (Some "") ->
  @extract_complete_email_metadata (with_date_parser L parser) now seed msg
  = extract_complete_email_metadata now seed msg
  /\ forall m left,
       extract_complete_email_metadata now seed msg = Ok (m, left) ->
       date_parsed m = None
       /\ date_rfc2822 m = ""
       /\ extraction_timestamp m = now
       /\ exists text,
            msg_str seed msg = Ok (text, left)
            /\ sha256_hexdigest text = Ok (message_hash m).
Proof.
  intros Hdate. split.
  - unfold extract_complete_email_metadata, addresses, header,
      analyze_received_path.
    cbn [with_date_parser msg_get msg_get_all msg_str parseaddr getaddresses
         sha256_hexdigest received_from].
    destruct (msg_get msg "Message-ID") as [mid|first]; cbn [bind];
      [|reflexivity].
    destruct Hdate as [-> | ->]; cbn [bind get_default PyStr.truthy];
      reflexivity.
  - intros m left Hm.
    destruct (extraction_hash now seed msg left m Hm) as (Hnow & Htext).
    split; [|split; [|split; [exact Hnow|exact Htext]]];
      unfold extract_complete_email_metadata, header in Hm;
      destruct (msg_get msg "Message-ID") as [mid|first];
      cbn [bind] in Hm; try discriminate Hm;
      destruct Hdate as [Hd | Hd]; rewrite Hd in Hm;
      cbn [bind get_default PyStr.truthy] in Hm;
      repeat next_call; inversion Hm; reflexivity.
Qed.

End DateHeader.

Lemma unparseable_date_is_logged_witness :
  Forensic.error_log
    (Forensic.process_single_eml (H := Toy.helpers) "now" "0"
       (Toy.after ["Mon, 1 Jan 2024.eml"]) "garbage.eml")
  = [("garbage.eml", Py.LibraryError "ValueError")]
  /\ length (Forensic.extracted_metadata
               (Forensic.process_single_eml (H := Toy.helpers) "now" "0"
                  (Toy.after ["Mon, 1 Jan 2024.eml"]) "garbage.eml")) = 1.
Proof.
  rewrite (@unparseable_date_is_logged Toy.mail unit unit Toy.helpers "now"
             "0" (Toy.after ["Mon, 1 Jan 2024.eml"]) "garbage.eml"
             (list_ascii_of_string "garbage")
             [("Date", "garbage"); ("From", "agent@areal.example")]
             "garbage" (Py.LibraryError "ValueError")
             eq_refl eq_refl eq_refl ltac:(discriminate) eq_refl).
  split; reflexivity.
Defined.

(** When the Message-ID cannot be read either, its exception is the one in
    the log: the date parser is never reached. *)
Lemma unreadable_message_id_comes_first :
  Forensic.error_log
    (Forensic.process_single_eml (H := Toy.helpers) "now" "0"
       Forensic.initial_state "<.eml")
  = [("<.eml", Py.IndexError)].
Proof. reflexivity. Qed.

Lemma missing_date_is_none_witness :
  exists m left,
    @Forensic.extract_complete_email_metadata Toy.mail "now" "0"
      [("From", "agent@areal.example")] = Py.Ok (m, left)
    /\ @Forensic.extract_complete_email_metadata
         (Forensic.with_date_parser Toy.mail
            (fun _ => Py.Raise (Py.LibraryError "ValueError")))
         "now" "0" [("From", "agent@areal.example")] = Py.Ok (m, left)
    /\ Forensic.date_parsed m = None
    /\ Forensic.date_rfc2822 m = ""
    /\ Forensic.message_hash m = "sha256:agent@areal.example"
    /\ Forensic.extraction_timestamp m = "now".
Proof.
  eexists. eexists. split; [reflexivity|].
  destruct (@missing_date_is_none Toy.mail
              (fun _ => Py.Raise (Py.LibraryError "ValueError"))
              "now" "0" [("From", "agent@areal.example")]
              (or_introl eq_refl)) as (Hsame & Hrecord).
  split; [exact Hsame|].
  destruct (Hrecord _ _ eq_refl) as (Hd & Hr & Ht & _).
  repeat split; first [exact Hd|exact Hr|exact Ht|reflexivity].
Defined.

(** ** Actors *)

Section Dicts.
Import Py.
Context {V : Type}.

Lemma dict_get_set (d : list (string * V)) (k k' : string) (v : V) :
  dict_get (dict_set d k v) k'
  = if String.eqb k k' then Some v else dict_get d k'.
Proof.
  induction d as [|[k0 v0] t IH]; cbn [dict_set dict_get].
  - destruct (String.eqb k k'); reflexivity.
  - destruct (String.eqb_spec k0 k) as [->|Hne]; cbn [dict_get].
    + destruct (String.eqb k k'); reflexivity.
    + rewrite IH. destruct (String.eqb_spec k0 k') as [->|Hne'].
      * destruct (String.eqb_spec k k') as [->|_]; [contradiction|reflexivity].
      * reflexivity.
Qed.

Lemma dict_get_none (d : list (string * V)) (k : string) :
  dict_get d k = None <-> ~ In k (map fst d).
Proof.
  induction d as [|[k0 v0] t IH]; cbn [dict_get map fst In].
  - tauto.
  - destruct (String.eqb_spec k0 k) as [->|Hne].
    + split; [discriminate|tauto].
    + rewrite IH. tauto.
Qed.

Lemma dict_set_keys (d : list (string * V)) (k : string) (v : V) :
  NoDup (map fst d) -> NoDup (map fst (dict_set d k v)).
Proof.
  induction d as [|[k0 v0] t IH]; intros Hnd; cbn [dict_set map fst].
  - constructor; [intros []|constructor].
  - inversion Hnd as [|? ? Hk0 Ht]; subst.
    destruct (String.eqb_spec k0 k) as [->|Hne]; cbn [map fst].
    + constructor; assumption.
    + constructor; [|apply IH; exact Ht].
      apply dict_get_none. rewrite dict_get_set.
      destruct (String.eqb_spec k k0) as [Heq|_];
        [symmetry in Heq; contradiction|].
      apply dict_get_none. exact Hk0.
Qed.

End Dicts.

Section Actors.
Import Py Forensic.
Context {L : EmailLib}.

(** How many of the processed messages come from [sender]. *)
Let sent_by (sender : string)
    (l : list (metadata * list Attachment * behavioral)) : nat :=
  length (filter (fun e => String.eqb (sender_email (fst (fst e))) sender) l).

Let counted (actors : list (string * actor)) (sender : string) : nat :=
  match dict_get actors sender with
  | Some a => communication_count a
  | None => 0
  end.

Lemma count_actor_step (actors actors' : list (string * actor))
    (m : metadata) :
  count_actor actors m = Ok actors' ->
  (NoDup (map fst actors) -> NoDup (map fst actors'))
  /\ (forall s,
        counted actors' s
        = counted actors s + (if String.eqb (sender_email m) s then 1 else 0))
  /\ ((forall s a, dict_get actors s = Some a ->
                   actor_email a = s /\ 0 < communication_count a) ->
      forall s a, dict_get actors' s = Some a ->
                  actor_email a = s /\ 0 < communication_count a).
Proof.
  unfold count_actor. cbv zeta.
  set (old := match dict_get actors (sender_email m) with
              | Some a => a
              | None => _
              end).
  intros Hrun.
  assert (Hshape : exists first last,
             actors' = dict_set actors (sender_email m)
                         {| actor_email := actor_email old;
                            actor_name := actor_name old;
                            role := role old;
                            communication_count := communication_count old + 1;
                            first_contact := first;
                            last_contact := last |}).
  { destruct (date_parsed m) as [d|].
    - destruct (match first_contact old with
                | Some f => datetime_lt d f | None => Ok true end)
        as [earlier|e]; cbn [bind] in Hrun; [|discriminate].
      destruct (match last_contact old with
                | Some l => datetime_lt l d | None => Ok true end)
        as [later|e]; cbn [bind] in Hrun; [|discriminate].
      inversion Hrun. eauto.
    - inversion Hrun. eauto. }
  destruct Hshape as (first & last & ->).
  split; [apply dict_set_keys|]. split.
  - intro s. unfold counted. rewrite dict_get_set.
    destruct (String.eqb_spec (sender_email m) s) as [<-|Hne];
      [|lia].
    cbn [communication_count]. unfold old.
    destruct (dict_get actors (sender_email m)); cbn; lia.
  - intros Hinv s a. rewrite dict_get_set.
    destruct (String.eqb_spec (sender_email m) s) as [<-|Hne];
      [|apply Hinv].
    intros Ha. inversion Ha; subst a. cbn [actor_email communication_count].
    split; [|lia]. unfold old.
    destruct (dict_get actors (sender_email m)) as [a0|] eqn:Hget;
      [apply (Hinv _ _ Hget)|reflexivity].
Qed.

Lemma map_actor_roles_from_counts
    (l : list (metadata * list Attachment * behavioral))
    (actors actors' : list (string * actor)) :
  map_actor_roles_from actors l = Ok actors' ->
  (NoDup (map fst actors) -> NoDup (map fst actors'))
  /\ (forall s, counted actors' s = counted actors s + sent_by s l)
  /\ ((forall s a, dict_get actors s = Some a ->
                   actor_email a = s /\ 0 < communication_count a) ->
      forall s a, dict_get actors' s = Some a ->
                  actor_email a = s /\ 0 < communication_count a).
Proof.
  revert actors. induction l as [|[[m att] b] t IH]; intros actors Hrun;
    cbn [map_actor_roles_from] in Hrun.
  - inversion Hrun; subst. unfold sent_by. cbn [filter length].
    split; [auto|]. split; [intro s; lia|auto].
  - destruct (count_actor actors m) as [mid|e] eqn:Hstep;
      cbn [bind] in Hrun; [|discriminate].
    destruct (count_actor_step _ _ _ Hstep) as (Hnd1 & Hc1 & Hi1).
    destruct (IH _ Hrun) as (Hnd2 & Hc2 & Hi2).
    split; [auto|]. split; [|auto].
    intro s. rewrite Hc2, Hc1. unfold sent_by. cbn [filter fst].
    destruct (String.eqb (sender_email m) s); cbn [length]; lia.
Qed.

(** X13.  When the actor map is built, it has one entry per sender
    address, filed under that address, and the communication count of an
    entry is the number of processed messages from that sender; an address
    that sent nothing has no entry. *)
Theorem actor_counts (st : state) (actors : list (string * actor))
    (sender : string) :
  map_actor_roles st = Ok actors ->
  NoDup (map fst actors)
  /\ match dict_get actors sender with
     | Some a =>
         actor_email a = sender
         /\ 0 < communication_count a
         /\ communication_count a
            = length (filter (fun e => String.eqb
                                         (sender_email (fst (fst e))) sender)
                             (extracted_metadata st))
     | None =>
         length (filter (fun e => String.eqb
                                    (sender_email (fst (fst e))) sender)
                        (extracted_metadata st)) = 0
     end.
Proof.
  intros Hrun. unfold map_actor_roles in Hrun.
  destruct (map_actor_roles_from_counts _ _ _ Hrun) as (Hnd & Hc & Hi).
  split; [apply Hnd; constructor|].
  specialize (Hc sender). unfold counted, sent_by in Hc. cbn [dict_get] in Hc.
  destruct (dict_get actors sender) as [a|] eqn:Hget.
  - destruct (Hi ltac:(intros s a0 H0; discriminate H0) sender a Hget)
      as [He Hp].
    repeat split; [exact He|exact Hp|lia].
  - lia.
Qed.

(** X14.  The role of an actor depends on the address only, read without
    regard to case; the name plays no part. *)
Theorem actor_role_ignores_case_and_name (email name name' : string) :
  determine_actor_role (PyStr.lower email) name'
  = determine_actor_role email name.
Proof.
  unfold determine_actor_role. rewrite PyStrMore.lower_idempotent.
  reflexivity.
Qed.

End Actors.

Lemma actor_counts_witness :
  NoDup (map fst
           (match @Forensic.map_actor_roles Toy.mail
                    (Toy.after ["Mon, 1 Jan 2024.eml"; "Tue, 2 Jan 2024.eml";
                                ".eml"])
            with Py.Ok actors => actors | Py.Raise _ => [] end))
  /\ (exists a,
        Py.dict_get
          (match @Forensic.map_actor_roles Toy.mail
                   (Toy.after ["Mon, 1 Jan 2024.eml"; "Tue, 2 Jan 2024.eml";
                               ".eml"])
           with Py.Ok actors => actors | Py.Raise _ => [] end)
          "agent@areal.example" = Some a
        /\ Forensic.communication_count a = 2).
Proof.
  destruct (@Forensic.map_actor_roles Toy.mail
              (Toy.after ["Mon, 1 Jan 2024.eml"; "Tue, 2 Jan 2024.eml";
                          ".eml"])) as [actors|e] eqn:Hrun;
    [|vm_compute in Hrun; discriminate Hrun].
  destruct (@actor_counts Toy.mail _ actors "agent@areal.example" Hrun)
    as [Hnd Hcount].
  split; [exact Hnd|].
  vm_compute in Hrun. inversion Hrun; subst actors. clear Hrun.
  eexists. split; reflexivity.
Defined.

(** ** Worked examples for the timelines *)

Lemma forensic_undated_with_aware_raises_witness :
  exists e,
    @Forensic.sorted_timeline Toy.mail
      (Toy.after [".eml"; "Tue, 2 Jan 2024 +0000.eml"]) = Py.Raise e.
Proof.
  eapply (@forensic_undated_with_aware_raises Toy.mail
            (Toy.after [".eml"; "Tue, 2 Jan 2024 +0000.eml"])
            _ _ 21%Z).
  - left. reflexivity.
  - right. left. reflexivity.
  - reflexivity.
  - reflexivity.
Defined.

Lemma narrative_timeline_all_dated_witness :
  exists timeline,
    @Narrative.extract_comprehensive_timeline unit Fixtures.always_linked
      (Py.Naive 0) Samples.two_dated = Py.Ok timeline
    /\ Forall (fun e => Narrative.timestamp e <> None) timeline.
Proof.
  eexists. split; [vm_compute; reflexivity|].
  eapply (@narrative_timeline_all_dated unit Fixtures.always_linked
            (Py.Naive 0) Samples.two_dated).
  - vm_compute. reflexivity.
  - cbn. lia.
Defined.

(** ** The narrative timeline on dated events *)

Section SortExt.
Import Py.
Context {A K1 K2 : Type}.
Variable lt1 : K1 -> K1 -> result bool.
Variable key1 : A -> K1.
Variable lt2 : K2 -> K2 -> result bool.
Variable key2 : A -> K2.

Lemma insert_by_ext (x : A) (l : list A) :
  (forall y, In y l -> lt1 (key1 y) (key1 x) = lt2 (key2 y) (key2 x)) ->
  insert_by lt1 key1 x l = insert_by lt2 key2 x l.
Proof.
  induction l as [|y t IH]; intros Hagree; [reflexivity|].
  cbn [insert_by]. rewrite (Hagree y (or_introl eq_refl)).
  rewrite IH; [reflexivity|]. intros z Hz. apply Hagree. right. exact Hz.
Qed.

Lemma sorted_by_ext (l : list A) :
  (forall x y, In x l -> In y l ->
               lt1 (key1 y) (key1 x) = lt2 (key2 y) (key2 x)) ->
  sorted_by lt1 key1 l = sorted_by lt2 key2 l.
Proof.
  induction l as [|x t IH]; intros Hagree; [reflexivity|].
  cbn [sorted_by]. rewrite IH
    by (intros a b Ha Hb; apply Hagree; right; assumption).
  destruct (sorted_by lt2 key2 t) as [t'|e] eqn:Ht; [|reflexivity].
  cbn [bind]. apply insert_by_ext. intros y Hy.
  apply Hagree; [left; reflexivity|]. right.
  apply Permutation_in with t'; [|exact Hy].
  apply Permutation_sym. apply (sorted_by_perm lt2 key2). exact Ht.
Qed.

End SortExt.

Section NarrativeDated.
Import Py Narrative.
Context {Evidence : Type} {H : Helpers Evidence}.

Lemma email_events_dated (l : list email) :
  (forall e, In e l -> exists imp, assess_event_importance e = Ok imp) ->
  exists evs,
    email_events l = Ok evs
    /\ map timestamp evs = map email_timestamp l.
Proof.
  induction l as [|e t IH]; intros Himp; cbn [email_events].
  - exists []. split; reflexivity.
  - destruct (Himp e (or_introl eq_refl)) as [imp ->]. cbn [bind].
    destruct IH as (evs & -> & Hts);
      [intros e' He'; apply Himp; right; exact He'|].
    cbn [bind]. eexists. split; [reflexivity|].
    cbn [map timestamp]. rewrite Hts. reflexivity.
Qed.

(** X15.  When every timestamp is a naive datetime (documents without a
    date take the naive current time) and the importance helper returns,
    the narrative timeline is built, holds one event per e-mail and per
    document, and is in ascending order of time. *)
Theorem narrative_timeline_dated (now : datetime) (all_sources : sources) :
  is_naive now ->
  (forall e, In e (get_default (emails all_sources) []) ->
             (exists n, email_timestamp e = Some (Naive n))
             /\ exists imp, assess_event_importance e = Ok imp) ->
  (forall d, In d (get_default (documents all_sources) []) ->
             date d = None \/ exists n, date d = Some (Some (Naive n))) ->
  exists timeline,
    extract_comprehensive_timeline now all_sources = Ok timeline
    /\ length timeline
       = length (get_default (emails all_sources) [])
         + length (get_default (documents all_sources) [])
    /\ StronglySorted
         (micro_le (fun e => get_default (timestamp e) datetime_min))
         timeline
    /\ Forall (fun e => exists n, timestamp e = Some (Naive n)) timeline.
Proof.
  intros Hnow Hemails Hdocs. unfold extract_comprehensive_timeline.
  destruct (email_events_dated (get_default (emails all_sources) []))
    as (evs & Hevs & Hts); [intros e He; apply Hemails; exact He|].
  assert (Hfrom : match emails all_sources with
                  | Some l => email_events l
                  | None => Ok []
                  end = Ok evs).
  { destruct (emails all_sources); [exact Hevs|].
    cbn in Hevs. exact Hevs. }
  rewrite Hfrom. cbn [bind].
  set (docs := match documents all_sources with
               | Some l => map (document_event now) l
               | None => []
               end).
  assert (Hdocs' : docs = map (document_event now)
                              (get_default (documents all_sources) [])).
  { unfold docs. destruct (documents all_sources); reflexivity. }
  assert (Hall : Forall (fun e => exists n, timestamp e = Some (Naive n))
                        (evs ++ docs)).
  { apply Forall_app. split.
    - apply Forall_forall. intros ev Hev.
      apply (in_map timestamp) in Hev. rewrite Hts in Hev.
      apply in_map_iff in Hev. destruct Hev as (e & He & Hin).
      destruct (Hemails e Hin) as [[n Hn] _]. exists n. congruence.
    - rewrite Hdocs'. apply Forall_forall. intros ev Hev.
      apply in_map_iff in Hev. destruct Hev as (d & <- & Hin).
      cbn [document_event timestamp].
      destruct (Hdocs d Hin) as [-> | [n ->]]; cbn [get_default].
      + destruct now as [n|z]; [eauto|destruct Hnow].
      + eauto. }
  rewrite (sorted_by_ext optional_datetime_lt timestamp datetime_lt
             (fun e => get_default (timestamp e) datetime_min)).
  - destruct (sorted_by_naive
                (fun e => get_default (timestamp e) datetime_min)
                (evs ++ docs)) as (tl & Hrun & Hperm & Hs & _).
    + eapply Forall_impl; [|exact Hall].
      intros ev [n ->]. exact I.
    + exists tl. split; [exact Hrun|]. split; [|split; [exact Hs|]].
      * rewrite <- (Permutation_length Hperm), length_app, Hdocs',
          length_map.
        f_equal. rewrite <- (length_map timestamp), Hts, length_map.
        reflexivity.
      * eapply Permutation_Forall; [exact Hperm|exact Hall].
  - rewrite Forall_forall in Hall. intros x y Hx Hy.
    destruct (Hall x Hx) as [nx ->]. destruct (Hall y Hy) as [ny ->].
    reflexivity.
Qed.

End NarrativeDated.

Lemma narrative_timeline_dated_witness :
  exists timeline,
    @Narrative.extract_comprehensive_timeline unit Fixtures.always_linked
      (Py.Naive 5000) Samples.mail_and_notice = Py.Ok timeline
    /\ map Narrative.timestamp timeline
       = [Some (Py.Naive 3000); Some (Py.Naive 5000)].
Proof.
  destruct (@narrative_timeline_dated unit Fixtures.always_linked
              (Py.Naive 5000) Samples.mail_and_notice I)
    as (timeline & Hrun & _).
  - intros e [<-|[]]. split; [exists 3000%N|exists "medium"]; reflexivity.
  - intros d [<-|[]]. left. reflexivity.
  - exists timeline. split; [exact Hrun|].
    vm_compute in Hrun. inversion Hrun. reflexivity.
Defined.

(** ** The causal map misses no pair in the window *)

Section CausalComplete.
Import Py Narrative.
Context {Evidence : Type} {H : Helpers Evidence}.

Lemma look_back_loop_complete (timeline : list event) (event : event)
    (js : list nat) (acc out : list (causal_link Evidence)) :
  look_back_loop timeline event js acc = Ok out ->
  (forall l, In l acc -> In l out)
  /\ length out <= length acc + length js
  /\ forall j previous s,
       In j js ->
       nth_error timeline j = Some previous ->
       assess_causal_relationship previous event = Ok s ->
       (causal_threshold < s)%Q ->
       exists ev,
         extract_causal_evidence previous event = Ok ev
         /\ In {| cause_event := previous; effect_event := event;
                  causal_strength := s; evidence := ev |} out.
Proof.
  revert acc. induction js as [|j js IH]; intros acc Hrun; cbn in Hrun.
  - inversion Hrun; subst. split; [auto|]. split; [cbn; lia|].
    intros j previous s [].
  - destruct (nth_error timeline j) as [prev|] eqn:Hj; [|discriminate].
    destruct (assess_causal_relationship prev event) as [s0|e] eqn:Hs;
      cbn [bind] in Hrun; [|discriminate].
    destruct (Qlt_le_dec causal_threshold s0) as [Hgt|Hle].
    + destruct (extract_causal_evidence prev event) as [ev|e] eqn:Hev;
        cbn [bind] in Hrun; [|discriminate].
      destruct (IH _ Hrun) as (Hsub & Hlen & Hall).
      split; [intros l Hl; apply Hsub; apply in_or_app; left; exact Hl|].
      split; [rewrite length_app in Hlen; cbn [length] in *; lia|].
      intros j' previous s [<-|Hin] Hnth Hassess Hs'.
      * rewrite Hj in Hnth. inversion Hnth; subst previous.
        rewrite Hs in Hassess. inversion Hassess; subst s.
        exists ev. split; [exact Hev|].
        apply Hsub. apply in_or_app. right. left. reflexivity.
      * eapply Hall; eassumption.
    + destruct (IH _ Hrun) as (Hsub & Hlen & Hall).
      split; [exact Hsub|]. split; [cbn [length]; lia|].
      intros j' previous s [<-|Hin] Hnth Hassess Hs'.
      * rewrite Hj in Hnth. inversion Hnth; subst previous.
        rewrite Hs in Hassess. inversion Hassess; subst s.
        exfalso. apply (Qlt_not_le _ _ Hs'). exact Hle.
      * eapply Hall; eassumption.
Qed.

Lemma look_back_length (i : nat) : length (look_back i) <= 5.
Proof. unfold look_back. rewrite length_seq. lia. Qed.

Lemma enumerate_loop_complete (timeline rest : list event) (i : nat)
    (acc out : list (causal_link Evidence)) :
  enumerate_loop timeline i rest acc = Ok out ->
  (forall l, In l acc -> In l out)
  /\ length out <= length acc + 5 * length rest
  /\ forall k event j previous s,
       nth_error rest k = Some event ->
       In j (look_back (i + k)) ->
       nth_error timeline j = Some previous ->
       assess_causal_relationship previous event = Ok s ->
       (causal_threshold < s)%Q ->
       exists ev,
         extract_causal_evidence previous event = Ok ev
         /\ In {| cause_event := previous; effect_event := event;
                  causal_strength := s; evidence := ev |} out.
Proof.
  revert i acc. induction rest as [|event rest IH]; intros i acc Hrun;
    cbn in Hrun.
  - inversion Hrun; subst. split; [auto|]. split; [cbn; lia|].
    intros [|k] ev j previous s Hk; discriminate Hk.
  - destruct (look_back_loop timeline event (look_back i) acc) as [mid|e]
      eqn:Hinner; cbn [bind] in Hrun; [|discriminate].
    destruct (look_back_loop_complete _ _ _ _ _ Hinner)
      as (Hsub1 & Hlen1 & Hall1).
    destruct (IH _ _ Hrun) as (Hsub2 & Hlen2 & Hall2).
    split; [auto|]. split.
    + pose proof (look_back_length i). cbn [length]. lia.
    + intros [|k] ev j previous s Hk Hj Hnth Hassess Hs.
      * cbn in Hk. inversion Hk; subst ev. rewrite Nat.add_0_r in Hj.
        destruct (Hall1 j previous s Hj Hnth Hassess Hs) as (evd & He & Hin).
        exists evd. auto.
      * cbn in Hk. apply (Hall2 k ev j previous s Hk); try assumption.
        replace (S i + k) with (i + S k) by lia. exact Hj.
Qed.

(** X16.  The causal map is complete on its window and small: whenever the
    map is built, every pair of events one to five places apart whose
    assessed strength is above 0.3 has its link in the map, and the map
    has at most five links per event. *)
Theorem causal_map_complete (timeline : list event)
    (links : list (causal_link Evidence)) (i j : nat)
    (previous event : event) (s : Q) :
  build_causal_relationship_map timeline = Ok links ->
  nth_error timeline j = Some previous ->
  nth_error timeline i = Some event ->
  j < i -> i <= j + 5 ->
  assess_causal_relationship previous event = Ok s ->
  (causal_threshold < s)%Q ->
  length links <= 5 * length timeline
  /\ exists ev,
       extract_causal_evidence previous event = Ok ev
       /\ In {| cause_event := previous; effect_event := event;
                causal_strength := s; evidence := ev |} links.
Proof.
  intros Hrun Hj Hi Hlt Hle Hassess Hs.
  unfold build_causal_relationship_map in Hrun.
  destruct (enumerate_loop_complete _ _ _ _ _ Hrun) as (_ & Hlen & Hall).
  split; [cbn [length] in Hlen; lia|].
  apply (Hall i event j previous s Hi); try assumption.
  apply look_back_spec. cbn. lia.
Qed.

End CausalComplete.

Lemma causal_map_complete_witness :
  exists links,
    @Narrative.build_causal_relationship_map unit Fixtures.always_linked
      Fixtures.eleven_events = Py.Ok links
    /\ length links <= 55
    /\ In (Fixtures.link_between 7 9) links.
Proof.
  eexists. split; [vm_compute; reflexivity|].
  destruct (@causal_map_complete unit Fixtures.always_linked
              Fixtures.eleven_events _ 9 7
              (Fixtures.numbered 7) (Fixtures.numbered 9) 1%Q
              eq_refl eq_refl eq_refl)
    as (Hlen & ev & Hev & Hin).
  - lia.
  - lia.
  - reflexivity.
  - reflexivity.
  - split; [exact Hlen|]. destruct ev. exact Hin.
Defined.

Lemma causal_map_returns_witness :
  exists links,
    @Narrative.build_causal_relationship_map unit Fixtures.always_linked
      Fixtures.eleven_events = Py.Ok links.
Proof.
  apply (@causal_map_returns unit Fixtures.always_linked).
  - intros a b. exists 1%Q. reflexivity.
  - intros a b. exists tt. reflexivity.
Defined.

Lemma causal_links_positions_witness :
  7 < 9 /\ 9 <= 7 + 5.
Proof.
  eapply (@causal_links_positions unit Fixtures.always_linked
            Fixtures.eleven_events _ (Fixtures.link_between 7 9) 9 7).
  - vm_compute.
    repeat (constructor;
            [cbn [In]; intuition discriminate|]).
    constructor.
  - vm_compute. reflexivity.
  - vm_compute. tauto.
  - reflexivity.
  - reflexivity.
Defined.

(** ** Power scores per node *)

Section PowerPerNode.
Import Py Narrative.
Context {N : Networkx}.

(** When the three centrality computations return, the power scores
    list every node of the graph once, in node order, each with the mean
    of its three centralities, a node missing from a centrality dict
    counting as 0; when one of them raises, so does the computation. *)
Theorem power_scores_per_node (g : Graph) :
  match calculate_power_dynamics g with
  | Ok scores =>
      map fst scores = nodes g
      /\ Forall (fun kv =>
                   (overall_power_score (snd kv)
                    == (betweenness (snd kv) + closeness (snd kv)
                        + eigenvector (snd kv)) / 3)%Q) scores
      /\ exists b c e,
           betweenness_centrality g = Ok b
           /\ closeness_centrality g = Ok c
           /\ eigenvector_centrality g 1000 = Ok e
           /\ Forall (fun kv =>
                        betweenness (snd kv)
                        = get_default (dict_get b (fst kv)) 0%Q
                        /\ closeness (snd kv)
                           = get_default (dict_get c (fst kv)) 0%Q
                        /\ eigenvector (snd kv)
                           = get_default (dict_get e (fst kv)) 0%Q) scores
  | Raise err =>
      betweenness_centrality g = Raise err
      \/ closeness_centrality g = Raise err
      \/ eigenvector_centrality g 1000 = Raise err
  end.
Proof.
  unfold calculate_power_dynamics.
  destruct (betweenness_centrality g) as [b|err]; cbn [bind]; [|auto].
  destruct (closeness_centrality g) as [c|err]; cbn [bind]; [|auto].
  destruct (eigenvector_centrality g 1000) as [e|err]; cbn [bind]; [|auto].
  split; [|split].
  - rewrite map_map. cbn [fst]. apply map_id.
  - apply Forall_map. apply Forall_forall. intros n _. reflexivity.
  - exists b, c, e. repeat split.
    apply Forall_map. apply Forall_forall. intros n _. repeat split.
Qed.

End PowerPerNode.

(** ** Government contacts and communication style *)

Section GmailFacts.
Import PyStr PyStrMore Gmail.

(** X17.  Six of the eight listed government domains are redundant: an
    address is a government contact exactly when, read in lower case, it
    contains [gov.au] or [austlii.edu.au]. *)
Theorem government_contact_iff (email_address : string) :
  is_government_contact email_address
  = contains "gov.au" (lower email_address)
    || contains "austlii.edu.au" (lower email_address).
Proof.
  unfold is_government_contact, gov_domains. cbn [existsb].
  set (a := lower email_address).
  assert (Hsub : forall d, contains "gov.au" d = true ->
                           contains d a = true ->
                           contains "gov.au" a = true)
    by (intros d; apply contains_trans).
  pose proof (Hsub "vcat.vic.gov.au" eq_refl) as H1.
  pose proof (Hsub "courts.vic.gov.au" eq_refl) as H2.
  pose proof (Hsub "vic.gov.au" eq_refl) as H3.
  pose proof (Hsub "ombudsman.vic.gov.au" eq_refl) as H4.
  pose proof (Hsub "consumer.vic.gov.au" eq_refl) as H5.
  pose proof (Hsub "housing.vic.gov.au" eq_refl) as H6.
  destruct (contains "gov.au" a);
    [rewrite !orb_true_r; reflexivity|].
  destruct (contains "vcat.vic.gov.au" a); [discriminate (H1 eq_refl)|].
  destruct (contains "courts.vic.gov.au" a); [discriminate (H2 eq_refl)|].
  destruct (contains "vic.gov.au" a); [discriminate (H3 eq_refl)|].
  destruct (contains "ombudsman.vic.gov.au" a); [discriminate (H4 eq_refl)|].
  destruct (contains "consumer.vic.gov.au" a); [discriminate (H5 eq_refl)|].
  destruct (contains "housing.vic.gov.au" a); [discriminate (H6 eq_refl)|].
  cbn. rewrite orb_false_r. reflexivity.
Qed.

Lemma style_counts_sum (emails : list (option string)) (f i : nat) :
  style_counts emails f i
  = (f + list_sum (map (fun e => keyword_hits formal_indicators
                                   (lower (Py.get_default e ""))) emails),
     i + list_sum (map (fun e => keyword_hits informal_indicators
                                   (lower (Py.get_default e ""))) emails)).
Proof.
  revert f i. induction emails as [|e t IH]; intros f i; cbn [style_counts].
  - cbn. rewrite !Nat.add_0_r. reflexivity.
  - cbv zeta. rewrite IH. cbn [map].
    change (list_sum (?a :: ?l)) with (a + list_sum l). f_equal; lia.
Qed.

Lemma list_sum_perm (l l' : list nat) :
  Permutation l l' -> list_sum l = list_sum l'.
Proof.
  induction 1;
    repeat change (list_sum (?a :: ?l)) with (a + list_sum l); lia.
Qed.

(** X18.  The communication style compares two totals over all e-mails of
    a contact, so it does not depend on the order of the e-mails; no
    e-mails, or e-mails without content, give neutral. *)
Theorem communication_style_order (emails emails' : list (option string)) :
  Permutation emails emails' ->
  analyze_communication_style emails = analyze_communication_style emails'.
Proof.
  intros Hperm. unfold analyze_communication_style.
  rewrite !style_counts_sum. cbn [fst snd].
  rewrite (list_sum_perm _ _ (Permutation_map
             (fun e => keyword_hits formal_indicators
                         (lower (Py.get_default e ""))) Hperm)).
  rewrite (list_sum_perm _ _ (Permutation_map
             (fun e => keyword_hits informal_indicators
                         (lower (Py.get_default e ""))) Hperm)).
  reflexivity.
Qed.

End GmailFacts.

Lemma communication_style_order_witness :
  Gmail.analyze_communication_style
    [Some "Hi, thanks for the reference."; None; Some "Pursuant to s 91"]
  = Gmail.analyze_communication_style
      [None; Some "Pursuant to s 91"; Some "Hi, thanks for the reference."].
Proof.
  apply communication_style_order.
  apply perm_trans with [None; Some "Hi, thanks for the reference.";
                         Some "Pursuant to s 91"].
  - apply perm_swap.
  - apply perm_skip. apply perm_swap.
Defined.

(** ** Complexity and serialisation *)

Section Synthesis.
Import MasterSynthesis.

(** The complexity assessment does not look at the intelligence:
    whatever the number of parties, the factors add up to 16, the score is
    capped at 10 and the level is high. *)
Theorem complexity_is_constant (parties : nat) :
  complexity_score (assess_situation_complexity parties) = 10
  /\ complexity_level (assess_situation_complexity parties) = "high"
  /\ number_of_parties (assess_situation_complexity parties) = parties.
Proof. repeat split. Qed.

End Synthesis.

Section Traverse.
Import Py.
Context {A B : Type}.
Variable f : A -> result B.




End Traverse.

Section Serialisable.
Import Py MasterSynthesis.




(** What the method does not reach: an object inside a tuple or used as a
    dict key is returned as it is.  A [__str__] that raises ends the call,
    and so does a nesting deeper than the frames left: a list in a list
    asks for four, an object in a list for three and one more for
    [str()]. *)
Lemma make_serializable_limits :
  make_serializable 3
    (VList [VTuple [VObject (default_str "<Contact agent>")]])
  = Ok (VList [VTuple [VObject (default_str "<Contact agent>")]])
  /\ make_serializable 3
       (VDict [(VObject (default_str "<Contact agent>"), VNone)])
     = Ok (VDict [(VObject (default_str "<Contact agent>"), VNone)])
  /\ make_serializable 4
       (VList [VObject (fun _ => Raise (TypeError "__str__"))])
     = Raise (TypeError "__str__")
  /\ make_serializable 3 (VList [VList []]) = Raise RecursionError
  /\ make_serializable 4 (VList [VList []]) = Ok (VList [VList []])
  /\ make_serializable 3 (VList [VObject (default_str "<Contact agent>")])
     = Raise RecursionError
  /\ make_serializable 4 (VList [VObject (default_str "<Contact agent>")])
     = Ok (VList [VStr "<Contact agent>"]).
Proof. repeat split. Qed.

End Serialisable.




(** ** The relationship graph *)

Section GraphFacts.
Import Py PyStr Relationship.

Lemma edge_eqb_eq (a b : string * string) : edge_eqb a b = true <-> a = b.
Proof.
  destruct a as [a1 a2], b as [b1 b2]. unfold edge_eqb. cbn [fst snd].
  rewrite andb_true_iff, !String.eqb_eq. split.
  - intros [-> ->]. reflexivity.
  - intros Heq. inversion Heq. auto.
Qed.

Lemma edge_eqb_refl (a : string * string) : edge_eqb a a = true.
Proof. apply edge_eqb_eq. reflexivity. Qed.

Lemma edge_get_set (es : list ((string * string) * edge_data))
    (e e' : string * string) (d : edge_data) :
  edge_get (edge_set es e d) e'
  = if edge_eqb e e' then Some d else edge_get es e'.
Proof.
  induction es as [|[e0 d0] t IH]; cbn [edge_set edge_get].
  - destruct (edge_eqb e e'); reflexivity.
  - destruct (edge_eqb e0 e) eqn:H0; cbn [edge_get].
    + apply edge_eqb_eq in H0. subst e0.
      destruct (edge_eqb e e'); reflexivity.
    + rewrite IH. destruct (edge_eqb e0 e') eqn:H1; [|reflexivity].
      apply edge_eqb_eq in H1. subst e'.
      destruct (edge_eqb e e0) eqn:H2; [|reflexivity].
      apply edge_eqb_eq in H2. subst e0.
      rewrite edge_eqb_refl in H0. discriminate H0.
Qed.

Lemma add_communication_weight (g : digraph) (comm : communication)
    (e : string * string) :
  weight_of (add_communication g comm) e
  = weight_of g e + (if goes e comm then 1 else 0).
Proof.
  unfold add_communication, goes. cbv zeta.
  set (s := get_default (sender comm) "").
  set (r := get_default (recipient comm) "").
  destruct (truthy s && truthy r); cbn [andb]; [|lia].
  unfold has_edge, bump_weight, weight_of.
  destruct (edge_get (edges g) (s, r)) as [d|] eqn:Hsr;
    cbn [edges add_edge]; rewrite edge_get_set;
    destruct (edge_eqb (s, r) e) eqn:He; try lia.
  - apply edge_eqb_eq in He. subst e. rewrite Hsr. cbn. lia.
  - apply edge_eqb_eq in He. subst e. rewrite Hsr. cbn. lia.
Qed.

Lemma add_communications_weight (comms : list communication) (g : digraph)
    (e : string * string) :
  weight_of (fold_left add_communication comms g) e
  = weight_of g e + length (filter (goes e) comms).
Proof.
  revert g. induction comms as [|c t IH]; intros g; cbn [fold_left filter].
  - cbn. lia.
  - rewrite IH, add_communication_weight.
    destruct (goes e c); cbn [length]; lia.
Qed.

(** X20.  Communications accumulate: with no legal documents, the weight
    of the edge from [s] to [r] after the build is its weight before plus
    the number of communications, over all contacts, whose sender is [s]
    and whose recipient is [r], both non-empty; a communication with a
    missing or empty end adds nothing. *)
Theorem communication_weights (g : digraph)
    (comm_data : list (string * list communication))
    (e : string * string) :
  weight_of (build_relationship_graph g comm_data []) e
  = weight_of g e + length (filter (goes e) (flat_map snd comm_data)).
Proof.
  unfold build_relationship_graph. cbn [fold_left].
  revert g. induction comm_data as [|[contact comms] t IH]; intros g;
    cbn [fold_left flat_map snd].
  - cbn. lia.
  - rewrite IH, add_communications_weight, filter_app, length_app. lia.
Qed.

(** The edge carries exactly weight 5 and type legal. *)
Let legal (e : string * string) (g : digraph) : Prop :=
  edge_get (edges g) e = Some {| weight := 5; kind := "legal" |}.

Lemma add_legal_edge_keeps (g : digraph) (u v : string)
    (e : string * string) :
  legal e g -> legal e (add_edge g u v 5 "legal").
Proof.
  unfold legal, add_edge. cbn [edges]. intros Hg. rewrite edge_get_set.
  destruct (edge_eqb (u, v) e); [reflexivity|exact Hg].
Qed.

Lemma add_legal_edges_keep (party1 : string) (rest : list string)
    (g : digraph) (e : string * string) :
  legal e g ->
  legal e (fold_left (fun g party2 => add_edge g party1 party2 5 "legal")
                     rest g).
Proof.
  revert g. induction rest as [|p t IH]; intros g Hg; cbn [fold_left];
    [exact Hg|].
  apply IH. apply add_legal_edge_keeps. exact Hg.
Qed.

Lemma add_legal_edges_make (party1 party2 : string) (rest : list string)
    (g : digraph) :
  In party2 rest ->
  legal (party1, party2)
        (fold_left (fun g p => add_edge g party1 p 5 "legal") rest g).
Proof.
  revert g. induction rest as [|p t IH]; intros g Hin; [destruct Hin|].
  cbn [fold_left]. destruct Hin as [->|Hin].
  - apply add_legal_edges_keep. unfold legal, add_edge. cbn [edges].
    rewrite edge_get_set, edge_eqb_refl. reflexivity.
  - apply IH. exact Hin.
Qed.

Lemma add_parties_keeps (parties : list string) (g : digraph)
    (e : string * string) :
  legal e g -> legal e (add_parties g parties).
Proof.
  revert g. induction parties as [|p t IH]; intros g Hg; cbn [add_parties];
    [exact Hg|].
  apply IH. apply add_legal_edges_keep. exact Hg.
Qed.

Lemma add_parties_makes (before between after : list string)
    (a b : string) (g : digraph) :
  legal (a, b) (add_parties g (before ++ a :: between ++ b :: after)).
Proof.
  revert g. induction before as [|p t IH]; intros g; cbn [app add_parties].
  - apply add_parties_keeps. apply add_legal_edges_make.
    apply in_or_app. right. left. reflexivity.
  - apply IH.
Qed.

Lemma add_documents_keep (docs : list (option (list string))) (g : digraph)
    (e : string * string) :
  legal e g ->
  legal e (fold_left (fun g doc => add_parties g (get_default doc []))
                     docs g).
Proof.
  revert g. induction docs as [|d t IH]; intros g Hg; cbn [fold_left];
    [exact Hg|].
  apply IH. apply add_parties_keeps. exact Hg.
Qed.

(** X21.  A legal document overrides: for every document and every two of
    its parties, the edge from the one listed first to the one listed
    later ends with weight 5 and type legal, whatever the communications
    had accumulated on it. *)
Theorem legal_edges_override (g : digraph)
    (comm_data : list (string * list communication))
    (legal_docs : list (option (list string)))
    (before between after : list string) (a b : string) :
  In (Some (before ++ a :: between ++ b :: after)) legal_docs ->
  edge_get (edges (build_relationship_graph g comm_data legal_docs)) (a, b)
  = Some {| weight := 5; kind := "legal" |}.
Proof.
  intros Hin. unfold build_relationship_graph. cbv zeta.
  set (g1 := fold_left _ comm_data g). clearbody g1.
  revert g1. induction legal_docs as [|d t IH]; intros g1; [destruct Hin|].
  cbn [fold_left]. destruct Hin as [->|Hin].
  - apply add_documents_keep. cbn [get_default]. apply add_parties_makes.
  - apply IH. exact Hin.
Qed.

End GraphFacts.

Lemma legal_edges_override_witness :
  Relationship.edge_get
    (Relationship.edges
       (Relationship.build_relationship_graph Relationship.empty
          [("agent", [{| Relationship.sender := Some "agent@areal.example";
                         Relationship.recipient := Some "tenant@example.org" |};
                      {| Relationship.sender := Some "agent@areal.example";
                         Relationship.recipient := Some "tenant@example.org" |};
                      {| Relationship.sender := Some "agent@areal.example";
                         Relationship.recipient := None |}])]
          [Some ["agent@areal.example"; "vcat@vcat.vic.gov.au";
                 "tenant@example.org"]]))
    ("agent@areal.example", "tenant@example.org")
  = Some {| Relationship.weight := 5; Relationship.kind := "legal" |}.
Proof.
  apply (legal_edges_override Relationship.empty _ _
           [] ["vcat@vcat.vic.gov.au"] []
           "agent@areal.example" "tenant@example.org").
  left. reflexivity.
Defined.

(** ** Narrative threads *)

Section ThreadFacts.
Import Py Narrative Threads.
Context {H : Helpers}.

(** The events filed under an id, none when the id is not there. *)
Let filed (threads : list (string * thread)) (thread_id : string)
  : list event :=
  match dict_get threads thread_id with
  | Some th => events th
  | None => []
  end.

(** Every thread is filed under its theme, is not empty and starts at
    the timestamp of its first event. *)
Let well_formed (threads : list (string * thread)) : Prop :=
  forall thread_id th,
    dict_get threads thread_id = Some th ->
    theme th = thread_id
    /\ match events th with
       | first :: _ => start_date th = timestamp first
       | [] => False
       end.

Lemma add_to_thread_step (threads threads' : list (string * thread))
    (event : event) :
  add_to_thread threads event = Ok threads' ->
  exists thread_id,
    determine_thread_id event = Ok thread_id
    /\ (NoDup (map fst threads) -> NoDup (map fst threads'))
    /\ (forall i, filed threads' i
                  = filed threads i
                    ++ (if String.eqb thread_id i then [event] else []))
    /\ (well_formed threads -> well_formed threads').
Proof.
  unfold add_to_thread. intros Hrun.
  destruct (determine_thread_id event) as [thread_id|e]; cbn [bind] in Hrun;
    [|discriminate].
  cbv zeta in Hrun.
  set (th := match dict_get threads thread_id with
             | Some th => th
             | None => _
             end) in Hrun.
  destruct (optional_datetime_lt (end_date th) (timestamp event))
    as [later|e]; cbn [bind] in Hrun; [|discriminate].
  inversion Hrun; subst threads'. clear Hrun.
  exists thread_id. split; [reflexivity|].
  split; [apply dict_set_keys|]. split.
  - intro i. unfold filed. rewrite dict_get_set.
    destruct (String.eqb_spec thread_id i) as [<-|Hne];
      [|rewrite app_nil_r; reflexivity].
    cbn [events]. unfold th.
    destruct (dict_get threads thread_id); reflexivity.
  - intros Hwf i thi. rewrite dict_get_set.
    destruct (String.eqb_spec thread_id i) as [<-|Hne]; [|apply Hwf].
    intros Hi. inversion Hi; subst thi. cbn [theme events start_date].
    unfold th.
    destruct (dict_get threads thread_id) as [th0|] eqn:Hget.
    + destruct (Hwf _ _ Hget) as [Htheme Hstart].
      split; [exact Htheme|].
      destruct (events th0) as [|first rest]; [destruct Hstart|exact Hstart].
    + cbn. split; reflexivity.
Qed.

Lemma threads_from_spec (timeline : list event)
    (threads out : list (string * thread)) :
  threads_from threads timeline = Ok out ->
  (NoDup (map fst threads) -> NoDup (map fst out))
  /\ (forall i, filed out i = filed threads i ++ filter (in_thread i) timeline)
  /\ (well_formed threads -> well_formed out)
  /\ Forall (fun e => exists i, determine_thread_id e = Ok i) timeline.
Proof.
  revert threads. induction timeline as [|event rest IH]; intros threads Hrun;
    cbn [threads_from] in Hrun.
  - inversion Hrun; subst. split; [auto|]. split; [|split; [auto|constructor]].
    intro i. cbn [filter]. rewrite app_nil_r. reflexivity.
  - destruct (add_to_thread threads event) as [mid|e] eqn:Hstep;
      cbn [bind] in Hrun; [|discriminate].
    destruct (add_to_thread_step _ _ _ Hstep)
      as (thread_id & Hid & Hnd1 & Hf1 & Hw1).
    destruct (IH _ Hrun) as (Hnd2 & Hf2 & Hw2 & Hall).
    split; [auto|]. split; [|split; [auto|]].
    + intro i. rewrite Hf2, Hf1, <- app_assoc. f_equal.
      cbn [filter]. unfold in_thread at 2. rewrite Hid.
      destruct (String.eqb thread_id i); reflexivity.
    + constructor; [exists thread_id; exact Hid|exact Hall].
Qed.

(** X22.  When the threads are built they partition the timeline: the
    thread ids are distinct, each thread is filed under its theme and
    holds, in timeline order, exactly the events whose id is that theme, so
    it is never empty and every event sits in one thread and no other; a
    thread starts at the timestamp of its first event. *)
Theorem threads_partition (timeline : list event)
    (threads : list (string * thread)) :
  identify_narrative_threads timeline = Ok threads ->
  NoDup (map fst threads)
  /\ (forall thread_id th,
        dict_get threads thread_id = Some th ->
        theme th = thread_id
        /\ events th = filter (in_thread thread_id) timeline
        /\ match events th with
           | first :: _ => start_date th = timestamp first
           | [] => False
           end)
  /\ (forall e, In e timeline ->
        exists thread_id th,
          determine_thread_id e = Ok thread_id
          /\ dict_get threads thread_id = Some th
          /\ In e (events th)).
Proof.
  intros Hrun. unfold identify_narrative_threads in Hrun.
  destruct (threads_from_spec _ _ _ Hrun) as (Hnd & Hf & Hw & Hall).
  assert (Hwf : well_formed threads)
    by (apply Hw; intros i th Hi; discriminate Hi).
  split; [apply Hnd; constructor|]. split.
  - intros i th Hi. destruct (Hwf i th Hi) as [Htheme Hstart].
    split; [exact Htheme|]. split; [|exact Hstart].
    specialize (Hf i). unfold filed in Hf. rewrite Hi in Hf. exact Hf.
  - intros e He. rewrite Forall_forall in Hall.
    destruct (Hall e He) as [i Hid].
    assert (Hin : In e (filed threads i)).
    { rewrite Hf. cbn [filed dict_get app]. apply filter_In.
      split; [exact He|]. unfold in_thread. rewrite Hid.
      apply String.eqb_refl. }
    unfold filed in Hin.
    destruct (dict_get threads i) as [th|] eqn:Hget; [|destruct Hin].
    exists i, th. auto.
Qed.

End ThreadFacts.

Lemma threads_partition_witness :
  exists threads,
    @Threads.identify_narrative_threads Samples.by_subject
      Samples.three_events = Py.Ok threads
    /\ map fst threads = ["Notice"; "Repairs"]
    /\ NoDup (map fst threads).
Proof.
  eexists. split; [vm_compute; reflexivity|]. split; [reflexivity|].
  apply (@threads_partition Samples.by_subject Samples.three_events).
  vm_compute. reflexivity.
Defined.

(** In the class as the repository has it the first event already
    fails. *)
Lemma threads_as_shipped (e : Narrative.event) (rest : list Narrative.event) :
  @Threads.identify_narrative_threads Threads.as_shipped (e :: rest)
  = Py.Raise (Py.AttributeError "determine_thread_id").
Proof. reflexivity. Qed.

Section ThreadTimestamps.
Import Py Narrative Threads.
Context {H : Helpers}.

Lemma threads_from_dated (timeline : list event)
    (threads out : list (string * thread)) :
  threads_from threads timeline = Ok out ->
  Forall (fun e => timestamp e <> None) timeline.
Proof.
  revert threads. induction timeline as [|event rest IH]; intros threads Hrun;
    [constructor|].
  cbn [threads_from] in Hrun.
  destruct (add_to_thread threads event) as [mid|e] eqn:Hstep;
    cbn [bind] in Hrun; [|discriminate].
  constructor; [|apply (IH _ Hrun)].
  unfold add_to_thread in Hstep.
  destruct (determine_thread_id event) as [thread_id|e]; cbn [bind] in Hstep;
    [|discriminate].
  cbv zeta in Hstep.
  destruct (optional_datetime_lt _ (timestamp event)) as [later|e] eqn:Hlt;
    cbn [bind] in Hstep; [|discriminate].
  intro Hnone. rewrite Hnone in Hlt.
  unfold optional_datetime_lt in Hlt.
  destruct (end_date _); discriminate Hlt.
Qed.

(** X23.  Threads cannot hold an undated event: taking the maximum of the
    end date and the timestamp compares with [None], so whenever the
    threads are built every event of the timeline has a timestamp, and a
    single undated event makes the whole grouping raise. *)
Theorem threads_need_timestamps (timeline : list event)
    (threads : list (string * thread)) :
  identify_narrative_threads timeline = Ok threads ->
  Forall (fun e => timestamp e <> None) timeline.
Proof.
  intros Hrun. apply (threads_from_dated _ _ _ Hrun).
Qed.

End ThreadTimestamps.

Lemma threads_need_timestamps_witness :
  Forall (fun e => Narrative.timestamp e <> None) Samples.three_events.
Proof.
  eapply (@threads_need_timestamps Samples.by_subject Samples.three_events).
  vm_compute. reflexivity.
Defined.

(** ** The forensic timeline on naive timestamps *)

Section ForensicSorted.
Import Py Forensic.
Context {L : EmailLib}.

(** X25.  With timestamps that are missing or naive the forensic timeline
    is built: it holds the same events, in ascending order of the sort key
    (a missing timestamp counting as [datetime.min]), events of one key in
    their input order, and before an undated event come only events whose
    key is [datetime.min] as well. *)
Theorem forensic_timeline_sorted (st : state) :
  Forall (fun x => match timestamp x with
                   | Some (Aware _) => False
                   | _ => True
                   end) (forensic_timeline st) ->
  exists timeline,
    sorted_timeline st = Ok timeline
    /\ Permutation (forensic_timeline st) timeline
    /\ StronglySorted (micro_le timeline_key) timeline
    /\ (forall k,
          filter (micro_is timeline_key k) timeline
          = filter (micro_is timeline_key k) (forensic_timeline st))
    /\ (forall before e after x,
          timeline = before ++ e :: after ->
          timestamp e = None ->
          In x before ->
          micro_of (timeline_key x) = 0%N).
Proof.
  intros Hnaive.
  destruct (forensic_timeline_naive st Hnaive)
    as (timeline & Hrun & Hperm & Hs & Hstable).
  exists timeline. repeat split; try assumption.
  intros before e after x -> He Hx.
  apply (forensic_undated_first st before after x e Hnaive Hrun He Hx).
Qed.

End ForensicSorted.

Lemma forensic_timeline_sorted_witness :
  exists timeline,
    @Forensic.sorted_timeline Toy.mail
      (Toy.after ["Mon, 1 Jan 2024.eml"; ".eml"; "Tue, 2 Jan.eml"])
    = Py.Ok timeline
    /\ Permutation
         (Forensic.forensic_timeline
            (Toy.after ["Mon, 1 Jan 2024.eml"; ".eml"; "Tue, 2 Jan.eml"]))
         timeline
    /\ map Forensic.timestamp timeline
       = [None; Some (Py.Naive 10); Some (Py.Naive 15)].
Proof.
  destruct (@forensic_timeline_sorted Toy.mail
              (Toy.after ["Mon, 1 Jan 2024.eml"; ".eml"; "Tue, 2 Jan.eml"]))
    as (timeline & Hrun & Hperm & _).
  - vm_compute. repeat constructor.
  - exists timeline. split; [exact Hrun|]. split; [exact Hperm|].
    vm_compute in Hrun. inversion Hrun. reflexivity.
Defined.
